(** * dagstuhl-dome-extension-metrics: the bio.tools fetcher, the
      deduplication step and the table transformer of [__main__.py]

    A shallow embedding of [get_tools], [tools_to_df] and [main].

    - JSON objects are records whose fields are [option]s: [None] is an
      absent key, so that [d["k"]] (a [KeyError] when absent) and
      [d.get("k", default)] can both be written as the source has them.
      Field values carry the types the bio.tools API documents (strings,
      arrays of objects, an integer count).
    - Python exceptions are the constructors of [exn]; code that can raise
      lives in the error monad [result].  An [except] clause takes an
      exception by its class, the first clause that fits wins; the classes
      that the handlers of [get_tools] name are [request_exception] and
      [json_decode_error].
    - [math.ceil(count / n)] goes through a float: [ceil_div] rounds the
      quotient to the nearest double as Python's integer division does, and
      raises [OverflowError] beyond the range of a float.
    - The set of topic URIs is a [gset string]; the dictionary of the
      deduplication step is an association list in insertion order, which
      is what [dict.values()] iterates over.
    - The network is a script: the list of the outcomes of the successive
      HTTP requests.  The [while True] loop of [get_tools] consumes one
      outcome per iteration, so it is a structural recursion on the script;
      a script that ends while the loop is still running leaves the fetch
      [Pending]. *)

From Stdlib Require Import ZArith String Ascii List Bool Lia.
From Stdlib Require DecimalString DecimalPos DecimalZ.
From stdpp Require Import base decidable option list strings gmap.

Import ListNotations.
Local Open Scope string_scope.
Local Open Scope Z_scope.
Local Open Scope list_scope.

(** ** Exceptions and the error monad *)

Inductive exn : Type :=
| RequestException (response : option Z)
    (** what [requests.get] and [raise_for_status] raise: a
        [requests.RequestException]; [response] is
        [e.response.status_code], [None] when [e.response is None] *)
| RequestsJSONDecodeError (msg : string)
    (** what [response.json()] raises on a body that does not parse, in
        requests 2.27 and later: [requests.exceptions.JSONDecodeError], a
        subclass of [requests.RequestException] (through
        [InvalidJSONError]) and of [json.JSONDecodeError]; its [response]
        is [None] *)
| JSONDecodeError (msg : string)
    (** a [json.JSONDecodeError] that is not a [requests.RequestException] *)
| KeyError (key : string)
| ZeroDivisionError
| OverflowError.

(** [isinstance(e, requests.RequestException)], with the status code of
    [e.response] *)
Definition request_exception (e : exn) : option (option Z) :=
  match e with
  | RequestException response => Some response
  | RequestsJSONDecodeError _ => Some None
  | _ => None
  end.

(** [isinstance(e, json.JSONDecodeError)], with the text of [e] *)
Definition json_decode_error (e : exn) : option string :=
  match e with
  | RequestsJSONDecodeError msg | JSONDecodeError msg => Some msg
  | _ => None
  end.

Inductive result (A : Type) : Type :=
| Ok (a : A)
| Raise (e : exn).

Arguments Ok {A} a.
Arguments Raise {A} e.

Definition bind {A B : Type} (r : result A) (k : A -> result B) : result B :=
  match r with
  | Ok a => k a
  | Raise e => Raise e
  end.

Notation "x <- r ;; k" := (bind r (fun x => k))
  (at level 100, r at next level, right associativity).

(** [d[key]] on a field that may be absent *)
Definition getitem {A : Type} (key : string) (field : option A) : result A :=
  match field with
  | Some v => Ok v
  | None => Raise (KeyError key)
  end.

(** [d.get(key, default)] *)
Definition get_default {A : Type} (field : option A) (default : A) : A :=
  match field with
  | Some v => v
  | None => default
  end.

(** a list comprehension whose element expression can raise: elements are
    evaluated left to right and the first exception aborts *)
Fixpoint comprehension {A B : Type} (f : A -> result B) (l : list A)
  : result (list B) :=
  match l with
  | [] => Ok []
  | a :: l' =>
      b <- f a ;;
      bs <- comprehension f l' ;;
      Ok (b :: bs)
  end.

(** ** Data model: the records of the registry *)

Record topic_obj : Type := { t_uri : option string }.

Record doc_obj : Type := { d_url : option string }.

Record link_obj : Type := { l_url : option string; l_type : option string }.

Record tool : Type := {
  biotoolsID : option string;
  name : option string;
  topic : option (list topic_obj);
  documentation : option (list doc_obj);
  link : option (list link_obj)
}.

(** ** The topic taxonomy *)

Definition GENOMIC_EDAM_TOPICS : list string :=
  [ "0622"; "0797"; "3173"; "3974"; "0085"; "3174"; "3943"; "0208"; "0194";
    "3796"; "3922"; "0122"; "3308"; "3941" ].

Definition PROTEOMICS_EDAM_TOPICS : list string := [ "0121"; "3922" ].

Definition MACHINE_LEARNING_EDAM_TOPICS : list string := [ "3474" ].

(** ** Strings *)

(** [f"http://edamontology.org/topic_{t}"] *)
Definition edam_uri (t : string) : string :=
  ("http://edamontology.org/topic_" ++ t)%string.

(** [sep.join(l)] *)
Definition join (sep : string) (l : list string) : string :=
  String.concat sep l.

(** [needle in hay] on strings: some suffix of [hay] starts with [needle] *)
Fixpoint contains (needle hay : string) : bool :=
  String.prefix needle hay
  || match hay with
     | EmptyString => false
     | String _ hay' => contains needle hay'
     end.

(** ** The transformer, [tools_to_df] *)

(** the seven lists the loop appends to, which become the columns of the
    data frame *)
Record columns : Type := {
  ids : list string;
  names : list string;
  is_genomics : list bool;
  is_proteomics : list bool;
  is_machine_learning : list bool;
  documentations : list string;
  repositories : list string
}.

Definition no_columns : columns :=
  {| ids := []; names := []; is_genomics := []; is_proteomics := [];
     is_machine_learning := []; documentations := []; repositories := [] |}.

(** [{topic["uri"] for topic in tool["topic"]}] *)
Definition topic_uris (t : tool) : result (gset string) :=
  topics <- getitem "topic" (topic t) ;;
  uris <- comprehension (fun tp => getitem "uri" (t_uri tp)) topics ;;
  Ok (list_to_set uris).

(** [any(f"http://edamontology.org/topic_{x}" in topic_uris for x in TOPICS)] *)
Definition any_topic (topics : list string) (uris : gset string) : bool :=
  existsb (fun x => bool_decide (edam_uri x ∈ uris)) topics.

(** [",".join([doc["url"] for doc in tool["documentation"]])] *)
Definition documentation_urls (t : tool) : result string :=
  docs <- getitem "documentation" (documentation t) ;;
  urls <- comprehension (fun d => getitem "url" (d_url d)) docs ;;
  Ok (join "," urls).

(** [[link["url"] for link in links if "Repository" in link["type"]]]: the
    condition is evaluated first, the element only when it holds *)
Fixpoint repository_links (links : list link_obj) : result (list string) :=
  match links with
  | [] => Ok []
  | l :: links' =>
      ty <- getitem "type" (l_type l) ;;
      if contains "Repository" ty then
        url <- getitem "url" (l_url l) ;;
        urls <- repository_links links' ;;
        Ok (url :: urls)
      else repository_links links'
  end.

Definition repository_urls (t : tool) : result string :=
  links <- getitem "link" (link t) ;;
  urls <- repository_links links ;;
  Ok (join "," urls).

(** the body of [for tool in tools:] *)
Definition append_tool (c : columns) (t : tool) : result columns :=
  let ids' := ids c ++ [get_default (biotoolsID t) ""] in
  let names' := names c ++ [get_default (name t) ""] in
  uris <- topic_uris t ;;
  let is_genomics' := is_genomics c ++ [any_topic GENOMIC_EDAM_TOPICS uris] in
  let is_proteomics' :=
    is_proteomics c ++ [any_topic PROTEOMICS_EDAM_TOPICS uris] in
  let is_machine_learning' :=
    is_machine_learning c ++ [any_topic MACHINE_LEARNING_EDAM_TOPICS uris] in
  docs <- documentation_urls t ;;
  let documentations' := documentations c ++ [docs] in
  repos <- repository_urls t ;;
  let repositories' := repositories c ++ [repos] in
  Ok {| ids := ids'; names := names'; is_genomics := is_genomics';
        is_proteomics := is_proteomics';
        is_machine_learning := is_machine_learning';
        documentations := documentations'; repositories := repositories' |}.

Fixpoint append_tools (c : columns) (tools : list tool) : result columns :=
  match tools with
  | [] => Ok c
  | t :: tools' =>
      c' <- append_tool c t ;;
      append_tools c' tools'
  end.

(** a row of the data frame *)
Record row : Type := {
  r_id : string;
  r_name : string;
  r_is_genomics : bool;
  r_is_proteomics : bool;
  r_is_machine_learning : bool;
  r_documentation : string;
  r_repository : string
}.

(** [pd.DataFrame({"id": ids, ...})]: the rows of the frame, read across
    the seven columns *)
Fixpoint DataFrame (i n : list string) (g p m : list bool) (d r : list string)
  : list row :=
  match i, n, g, p, m, d, r with
  | i0 :: i', n0 :: n', g0 :: g', p0 :: p', m0 :: m', d0 :: d', r0 :: r' =>
      {| r_id := i0; r_name := n0; r_is_genomics := g0; r_is_proteomics := p0;
         r_is_machine_learning := m0; r_documentation := d0;
         r_repository := r0 |} :: DataFrame i' n' g' p' m' d' r'
  | _, _, _, _, _, _, _ => []
  end.

Definition tools_to_df (tools : list tool) : result (list row) :=
  c <- append_tools no_columns tools ;;
  Ok (DataFrame (ids c) (names c) (is_genomics c) (is_proteomics c)
        (is_machine_learning c) (documentations c) (repositories c)).

(** ** The fetcher, [get_tools] *)

(** the body of a page: [data["list"]], [data["count"]] and
    [data.get("next")], which is [None] for an absent key and for [null] *)
Record page_data : Type := {
  pg_list : option (list tool);
  pg_count : option Z;
  pg_next : option string
}.

(** what one pass through [requests.get], [raise_for_status] and
    [response.json()] comes to *)
Inductive reply : Type :=
| RequestFailed (response : option Z)
| InvalidJSON (msg : string)
| Body (data : page_data).

Inductive level : Type := INFO | WARNING | ERROR.

Inductive event : Type :=
| Log (lvl : level) (message : string)
| Get (url : string) (timeout : Z)
| Sleep (seconds : Z).

(** [str(n)] for an integer *)
Definition str (n : Z) : string :=
  DecimalString.NilZero.string_of_int (Z.to_int n).

Definition tab : string := String "009"%char EmptyString.

Definition page_url (topic_id : string) (page : Z) : string :=
  ("https://bio.tools/api/tool/?topicID=%22topic_" ++ topic_id
   ++ "%22&format=json&page=" ++ str page)%string.

Definition page_message (page max_pages : Z) : string :=
  (tab ++ tab ++ " ... page " ++ str page ++ " / "
   ++ (if (0 <? max_pages)%Z then str max_pages else "?"))%string.

Definition retry_message (status_code : Z) : string :=
  ("Seems like bio.tools got some problems.  " ++ str status_code
   ++ " encountered. Retrying in a few seconds...")%string.

Definition decode_message (msg : string) : string :=
  ("Failed to decode JSON response: " ++ msg)%string.

(** the local variables of [get_tools] *)
Record locals : Type := {
  tools : list tool;
  page : Z;
  max_pages : Z
}.

Inductive control : Type := Break | Next.

(** the integer nearest to [a / b] for [0 <= a] and [0 < b], the even one
    of the two when [a / b] lies half way *)
Definition round_half_even (a b : Z) : Z :=
  let q := a / b in
  let r := a mod b in
  if 2 * r <? b then q
  else if b <? 2 * r then q + 1
  else if Z.even q then q else q + 1.

(** the [e] with [2 ^ (e - 1) <= a / b < 2 ^ e], for [0 < a] and [0 < b] *)
Definition exponent (a b : Z) : Z :=
  let d := Z.log2 a - Z.log2 b in
  if (if 0 <=? d then b * 2 ^ d <=? a else b <=? a * 2 ^ (- d))
  then d + 1 else d.

(** the double nearest to [a / b] for [0 < a] and [0 < b], as a mantissa
    [m] and a power [k] of two that stand for [m * 2 ^ k]: 53 bits of
    mantissa, and fewer below the normal range, whose least exponent is
    -1021 *)
Definition nearest_float (a b : Z) : Z * Z :=
  let k := Z.max (exponent a b) (-1021) - 53 in
  let m := if 0 <=? k then round_half_even a (b * 2 ^ k)
           else round_half_even (a * 2 ^ (- k)) b in
  (m, k).

(** [math.ceil(count / n)] for a length [n]: the division of two integers
    gives the nearest double, raises [ZeroDivisionError] for [n = 0] and
    [OverflowError] when that double would be [2 ^ 1024] or more; the
    ceiling of the double is exact; the value only reaches the log line *)
Definition ceil_div (count : Z) (n : nat) : result Z :=
  if Nat.eqb n 0 then Raise ZeroDivisionError
  else if count =? 0 then Ok 0
  else
    let '(m, k) := nearest_float (Z.abs count) (Z.of_nat n) in
    if (0 <=? k) && (2 ^ 1024 <=? m * 2 ^ k) then Raise OverflowError
    else
      let s := Z.sgn count * m in
      Ok (if 0 <=? k then s * 2 ^ k else - ((- s) / 2 ^ (- k))).

(** the body of [try:] *)
Definition try_body (st : locals) (r : reply) : result (control * locals) :=
  match r with
  | RequestFailed response => Raise (RequestException response)
  | InvalidJSON msg => Raise (RequestsJSONDecodeError msg)
  | Body data =>
      l <- getitem "list" (pg_list data) ;;
      let tools' := tools st ++ l in
      let next_page := pg_next data in
      if match next_page with
         | None => true
         | Some s => String.eqb s ""
         end
      then Ok (Break, {| tools := tools'; page := page st;
                         max_pages := max_pages st |})
      else
        let page' := page st + 1 in
        count <- getitem "count" (pg_count data) ;;
        pages <- ceil_div count (length l) ;;
        Ok (Next, {| tools := tools'; page := page'; max_pages := pages |})
  end.

(** [e.response is not None and 500 <= e.response.status_code < 600] *)
Definition server_error (response : option Z) : option Z :=
  match response with
  | Some status_code =>
      if (500 <=? status_code) && (status_code <? 600)
      then Some status_code else None
  | None => None
  end.

(** how a call ends: it returns, an exception leaves it, or the script is
    used up while the loop is still asking for pages *)
Inductive outcome : Type :=
| Returned (result : list tool) (rest : list reply) (trace : list event)
| Raised (e : exn) (trace : list event)
| Pending (st : locals) (trace : list event).

(** [while True:], one iteration per reply *)
Fixpoint fetch_loop (topic_id : string) (script : list reply) (st : locals)
  (trace : list event) : outcome :=
  match script with
  | [] => Pending st trace
  | r :: script' =>
      let trace1 :=
        trace ++ [ Log INFO (page_message (page st) (max_pages st));
                   Get (page_url topic_id (page st)) 20 ] in
      match try_body st r with
      | Ok (Break, st') => Returned (tools st') script' trace1
      | Ok (Next, st') => fetch_loop topic_id script' st' trace1
      | Raise e =>
          match request_exception e with
          | Some response =>
              (* except requests.RequestException *)
              match server_error response with
              | Some status_code =>
                  fetch_loop topic_id script' st
                    (trace1 ++ [ Log WARNING (retry_message status_code);
                                 Sleep 5 ])
              | None => fetch_loop topic_id script' st trace1
              end
          | None =>
              match json_decode_error e with
              | Some msg =>
                  (* except json.JSONDecodeError *)
                  Returned (tools st) script'
                    (trace1 ++ [ Log ERROR (decode_message msg) ])
              | None => Raised e trace1
              end
          end
      end
  end.

Definition get_tools (topic_id : string) (script : list reply) : outcome :=
  fetch_loop topic_id script {| tools := []; page := 1; max_pages := 0 |} [].

(** the URLs requested, in order *)
Definition requests (trace : list event) : list string :=
  flat_map (fun ev => match ev with Get url _ => [url] | _ => [] end) trace.

(** the pauses taken, in order *)
Definition sleeps (trace : list event) : list Z :=
  flat_map (fun ev => match ev with Sleep s => [s] | _ => [] end) trace.

(** the messages logged at a level, in order *)
Definition logged (lvl : level) (trace : list event) : list string :=
  flat_map (fun ev =>
              match ev, lvl with
              | Log INFO m, INFO | Log WARNING m, WARNING
              | Log ERROR m, ERROR => [m]
              | _, _ => []
              end) trace.

(** ** The deduplication step of [main] *)

(** a [dict] from identifier to record: the items in insertion order *)
Definition dict : Type := list (string * tool).

(** [d[k] = v]: an existing key keeps its place and takes the new value, a
    new key goes to the end *)
Fixpoint dict_set (k : string) (v : tool) (d : dict) : dict :=
  match d with
  | [] => [(k, v)]
  | (k', v') :: d' =>
      if String.eqb k' k then (k', v) :: d' else (k', v') :: dict_set k v d'
  end.

(** [{tool["biotoolsID"]: tool for tool in tools}], from the entries [d] *)
Fixpoint dict_comprehension (l : list tool) (d : dict) : result dict :=
  match l with
  | [] => Ok d
  | t :: l' =>
      k <- getitem "biotoolsID" (biotoolsID t) ;;
      dict_comprehension l' (dict_set k t d)
  end.

(** [list(d.values())] *)
Definition values (d : dict) : list tool := map snd d.

Definition unique_tools (l : list tool) : result (list tool) :=
  d <- dict_comprehension l [] ;;
  Ok (values d).

(** ** The driver, [main] *)

(** the two cache files: [None] when the file does not exist, otherwise
    the table, or the array of records, that its text holds *)
Record files : Type := {
  DF_CACHE_FILE : option (list row);
  TOOL_CACHE_FILE : option (list tool)
}.

(** [for topic in TOPICS: tools.extend(get_tools(topic))], with the log
    line of each round *)
Fixpoint fetch_topics (topics : list string) (acc : list tool)
  (script : list reply) (trace : list event) : outcome :=
  match topics with
  | [] => Returned acc script trace
  | topic_id :: topics' =>
      let trace1 :=
        trace ++ [ Log INFO (tab ++ "... fetching tools for topic '"
                             ++ topic_id ++ "'")%string ] in
      match get_tools topic_id script with
      | Returned got rest tr =>
          fetch_topics topics' (acc ++ got) rest (trace1 ++ tr)
      | Raised e tr => Raised e (trace1 ++ tr)
      | Pending st tr => Pending st (trace1 ++ tr)
      end
  end.

(** how a run of the program ends *)
Inductive run : Type :=
| Exited (fs : files) (df : list row) (trace : list event)
| Crashed (e : exn) (fs : files) (trace : list event)
| Hung (fs : files) (trace : list event).

(** from [logging.info("Converting tools to DataFrame.")] to the end *)
Definition convert (fs : files) (l : list tool) (trace : list event) : run :=
  let trace1 := trace ++ [ Log INFO "Converting tools to DataFrame." ] in
  match tools_to_df l with
  | Ok df =>
      Exited {| DF_CACHE_FILE := Some df;
                TOOL_CACHE_FILE := TOOL_CACHE_FILE fs |}
        df (trace1 ++ [ Log INFO "Writing fetched data to cache file." ])
  | Raise e => Crashed e fs trace1
  end.

Definition main (fs : files) (script : list reply) : run :=
  match DF_CACHE_FILE fs with
  | Some df =>
      Exited fs df
        [ Log INFO "Dataframe cache file found. Loading data from cache." ]
  | None =>
      match TOOL_CACHE_FILE fs with
      | Some l =>
          convert fs l
            [ Log INFO "bio.tools cache file found. Loading data from cache." ]
      | None =>
          match
            fetch_topics PROTEOMICS_EDAM_TOPICS [] script
              [ Log INFO
                  "Cache file not found. Fetching data from bio.tools API.";
                Log INFO "Fetching proteomic tools..." ]
          with
          | Returned l rest tr =>
              match
                fetch_topics GENOMIC_EDAM_TOPICS l rest
                  (tr ++ [ Log INFO "Fetching genomic tools..." ])
              with
              | Returned l' _ tr' =>
                  let fs' := {| DF_CACHE_FILE := None;
                                TOOL_CACHE_FILE := Some l' |} in
                  let tr'' :=
                    tr' ++ [ Log INFO
                               "Removing duplicate tools based on biotoolsID." ]
                  in
                  match unique_tools l' with
                  | Ok l'' => convert fs' l'' tr''
                  | Raise e => Crashed e fs' tr''
                  end
              | Raised e tr' => Crashed e fs tr'
              | Pending _ tr' => Hung fs tr'
              end
          | Raised e tr => Crashed e fs tr
          | Pending _ tr => Hung fs tr
          end
      end
  end.

(** ** Derived notions used to state the properties *)

(** the row that one pass of the loop body of [tools_to_df] contributes;
    [tools_to_df_rows] below shows that the table is made of these rows *)
Definition row_of (t : tool) : result row :=
  uris <- topic_uris t ;;
  docs <- documentation_urls t ;;
  repos <- repository_urls t ;;
  Ok {| r_id := get_default (biotoolsID t) "";
        r_name := get_default (name t) "";
        r_is_genomics := any_topic GENOMIC_EDAM_TOPICS uris;
        r_is_proteomics := any_topic PROTEOMICS_EDAM_TOPICS uris;
        r_is_machine_learning := any_topic MACHINE_LEARNING_EDAM_TOPICS uris;
        r_documentation := docs;
        r_repository := repos |}.

(** one more entry at the end of each of the seven lists *)
Definition add_row (c : columns) (r : row) : columns :=
  {| ids := ids c ++ [r_id r];
     names := names c ++ [r_name r];
     is_genomics := is_genomics c ++ [r_is_genomics r];
     is_proteomics := is_proteomics c ++ [r_is_proteomics r];
     is_machine_learning := is_machine_learning c ++ [r_is_machine_learning r];
     documentations := documentations c ++ [r_documentation r];
     repositories := repositories c ++ [r_repository r] |}.

(** the seven lists have the same length *)
Definition aligned (c : columns) (n : nat) : Prop :=
  length (ids c) = n /\ length (names c) = n /\ length (is_genomics c) = n
  /\ length (is_proteomics c) = n /\ length (is_machine_learning c) = n
  /\ length (documentations c) = n /\ length (repositories c) = n.

Definition frame_of (c : columns) : list row :=
  DataFrame (ids c) (names c) (is_genomics c) (is_proteomics c)
    (is_machine_learning c) (documentations c) (repositories c).

(** the value stored under a key of a [dict] *)
Fixpoint dict_get (k : string) (d : dict) : option tool :=
  match d with
  | [] => None
  | (k', v) :: d' => if String.eqb k' k then Some v else dict_get k d'
  end.

(** the last record of a list that carries the identifier [k], [o] when
    there is none *)
Fixpoint last_with (k : string) (l : list tool) (o : option tool)
  : option tool :=
  match l with
  | [] => o
  | t :: l' =>
      last_with k l' (if bool_decide (biotoolsID t = Some k) then Some t else o)
  end.

(** the link carries a type that contains "Repository" *)
Definition is_repository (l : link_obj) : bool :=
  match l_type l with
  | Some ty => contains "Repository" ty
  | None => false
  end.

(** the events of one iteration up to the request *)
Definition attempt (topic_id : string) (st : locals) : list event :=
  [ Log INFO (page_message (page st) (max_pages st));
    Get (page_url topic_id (page st)) 20 ].

(** the pauses of a run of request failures: one for each 5xx answer *)
Definition pauses (failures : list (option Z)) : list Z :=
  flat_map (fun response =>
              match server_error response with
              | Some _ => [5]
              | None => []
              end) failures.

(** [page_url topic_id p] for [p] from [first], [n] times *)
Fixpoint page_urls (topic_id : string) (first : Z) (n : nat) : list string :=
  match n with
  | O => []
  | S n' => page_url topic_id first :: page_urls topic_id (first + 1) n'
  end.

(** the [list] arrays of a sequence of pages, one after the other *)
Definition lists_of (pages : list page_data) : list tool :=
  flat_map (fun data => get_default (pg_list data) []) pages.

(** a page that is followed by another: it has a [list] that is not empty,
    a [count], and a [next] that is not empty *)
Definition inner_page (data : page_data) : bool :=
  match pg_list data, pg_count data, pg_next data with
  | Some (_ :: _), Some _, Some s => negb (String.eqb s "")
  | _, _, _ => false
  end.

(** the [count] of the page, when it has one, is below [2 ^ 1023] in
    absolute value: its quotient by a length is in the range of a float *)
Definition count_in_range (data : page_data) : bool :=
  match pg_count data with
  | Some count => Z.abs count <? 2 ^ 1023
  | None => true
  end.

(** a page that ends the fetch: it has a [list], and [next] is absent,
    [null] or empty *)
Definition final_page (data : page_data) : bool :=
  match pg_list data, pg_next data with
  | Some _, None => true
  | Some _, Some s => String.eqb s ""
  | None, _ => false
  end.

(** ** Sample records *)

Definition genomics_tool : tool :=
  {| biotoolsID := Some "bwa"; name := Some "BWA";
     topic := Some [ {| t_uri := Some "http://edamontology.org/topic_0622" |};
                     {| t_uri := Some "http://edamontology.org/topic_0102" |} ];
     documentation := Some [ {| d_url := Some "https://bwa.example/doc" |};
                             {| d_url := Some "https://bwa.example/faq" |} ];
     link := Some [] |}.

Definition sample_links : list link_obj :=
  [ {| l_url := Some "A"; l_type := Some "Repository" |};
    {| l_url := Some "B"; l_type := Some "Other" |};
    {| l_url := Some "C"; l_type := Some "SourceRepository" |} ].

Definition linked_tool : tool :=
  {| biotoolsID := Some "t"; name := Some "T"; topic := Some [];
     documentation := Some []; link := Some sample_links |}.

(** two records with one identifier and different names *)
Definition first_copy : tool :=
  {| biotoolsID := Some "msfragger"; name := Some "MSFragger";
     topic := Some [ {| t_uri := Some "http://edamontology.org/topic_0121" |} ];
     documentation := Some []; link := Some [] |}.

Definition second_copy : tool :=
  {| biotoolsID := Some "msfragger"; name := Some "MSFragger 2";
     topic := Some [ {| t_uri := Some "http://edamontology.org/topic_3922" |} ];
     documentation := Some []; link := Some [] |}.

Definition other_tool : tool :=
  {| biotoolsID := Some "comet"; name := Some "Comet";
     topic := Some [ {| t_uri := Some "http://edamontology.org/topic_0121" |} ];
     documentation := Some []; link := Some [] |}.

(** a record without [topic], and one without [biotoolsID] and [name] *)
Definition no_topic_tool : tool :=
  {| biotoolsID := Some "x"; name := Some "X"; topic := None;
     documentation := Some []; link := Some [] |}.

Definition anonymous_tool : tool :=
  {| biotoolsID := None; name := None; topic := Some [];
     documentation := Some []; link := Some [] |}.

Definition no_documentation_tool : tool :=
  {| biotoolsID := Some "y"; name := Some "Y"; topic := Some [];
     documentation := None; link := Some [] |}.

Definition no_link_tool : tool :=
  {| biotoolsID := Some "z"; name := Some "Z"; topic := Some [];
     documentation := Some []; link := None |}.

(** a page with an empty [list] that announces a next page, and a last
    page *)
Definition empty_page : page_data :=
  {| pg_list := Some []; pg_count := Some 0;
     pg_next := Some "?page=2" |}.

Definition last_page (l : list tool) : page_data :=
  {| pg_list := Some l; pg_count := Some (Z.of_nat (length l));
     pg_next := None |}.


Definition inner_sample : page_data :=
  {| pg_list := Some [first_copy]; pg_count := Some 2;
     pg_next := Some "?page=2" |}.

Definition no_files : files :=
  {| DF_CACHE_FILE := None; TOOL_CACHE_FILE := None |}.

(** the fields that the transformer reads with [d[key]] are there: [topic]
    with a [uri] on each entry, [documentation] with a [url] on each entry,
    [link] with a [type] on each entry and a [url] on each entry that is
    selected; [biotoolsID] and [name] are not asked for *)
Definition well_formed (t : tool) : bool :=
  match topic t, documentation t, link t with
  | Some ts, Some ds, Some ls =>
      forallb (fun tp => bool_decide (is_Some (t_uri tp))) ts
      && forallb (fun d => bool_decide (is_Some (d_url d))) ds
      && forallb (fun l =>
                    match l_type l with
                    | Some ty =>
                        if contains "Repository" ty
                        then bool_decide (is_Some (l_url l)) else true
                    | None => false
                    end) ls
  | _, _, _ => false
  end.

(** every value of the dictionary carries the identifier it is stored
    under *)
Definition keyed (d : dict) : Prop :=
  Forall (fun kv => biotoolsID (snd kv) = Some (fst kv)) d.

(** the records of a list that carry the identifier [k] *)
Definition with_id (k : string) (l : list tool) : list tool :=
  List.filter (fun t => bool_decide (biotoolsID t = Some k)) l.

Definition raw_cache_only (l : list tool) : files :=
  {| DF_CACHE_FILE := None; TOOL_CACHE_FILE := Some l |}.

(** the replies of a registry that knows one tool under topic 3922 and
    none under the other topics: the second request of the run is the one
    for topic 3922 among the proteomics topics, the thirteenth the one
    among the genomics topics *)
Definition msfragger_script : list reply :=
  [ Body (last_page []); Body (last_page [first_copy]) ]
  ++ repeat (Body (last_page [])) 10
  ++ [ Body (last_page [second_copy]) ]
  ++ repeat (Body (last_page [])) 3.

(** ** Further notions, for the properties of the program as a whole *)

(** the pages among a list of replies, in order *)
Definition bodies (script : list reply) : list page_data :=
  flat_map (fun r => match r with Body data => [data] | _ => [] end) script.

(** the responses of the request failures among a list of replies *)
Definition failures (script : list reply) : list (option Z) :=
  flat_map (fun r => match r with RequestFailed response => [response]
                             | _ => [] end) script.

Definition is_failure (r : reply) : bool :=
  match r with
  | RequestFailed _ => true
  | _ => false
  end.

(** a list of replies without the request failures *)
Definition without_failures (script : list reply) : list reply :=
  List.filter (fun r => negb (is_failure r)) script.

Definition trace_of (o : outcome) : list event :=
  match o with
  | Returned _ _ trace | Raised _ trace | Pending _ trace => trace
  end.

(** what a call comes to, without the trace and the replies left over *)
Inductive verdict : Type :=
| Gave (result : list tool)
| Threw (e : exn)
| Waiting (st : locals).

Definition verdict_of (o : outcome) : verdict :=
  match o with
  | Returned l _ _ => Gave l
  | Raised e _ => Threw e
  | Pending st _ => Waiting st
  end.

(** what the loop, started in [st] with [trace], accounts for at its end:
    the replies it consumed, the records of the pages among them, one
    request for each of them and one pause for each 5xx failure *)
Definition accounted (script : list reply) (st : locals) (trace : list event)
  (o : outcome) : Prop :=
  match o with
  | Returned l rest trace' =>
      exists used,
        script = used ++ rest /\
        l = tools st ++ lists_of (bodies used) /\
        length (requests trace') =
        (length (requests trace) + length used)%nat /\
        sleeps trace' = sleeps trace ++ pauses (failures used)
  | Raised e trace' =>
      exists used data rest,
        script = used ++ Body data :: rest /\
        (forall st0, try_body st0 (Body data) = Raise e) /\
        length (requests trace') =
        (length (requests trace) + length used + 1)%nat /\
        sleeps trace' = sleeps trace ++ pauses (failures used)
  | Pending st' trace' =>
      tools st' = tools st ++ lists_of (bodies script) /\
      page st' = page st + Z.of_nat (length (bodies script)) /\
      length (requests trace') =
      (length (requests trace) + length script)%nat /\
      sleeps trace' = sleeps trace ++ pauses (failures script)
  end.

(** page numbers that start at [p] and go on with the same page or with
    the next one *)
Fixpoint paged (p : Z) (ps : list Z) : Prop :=
  match ps with
  | [] => True
  | q :: ps' => q = p /\ (paged p ps' \/ paged (p + 1) ps')
  end.

(** the timeouts of the requests, in order *)
Definition timeouts (trace : list event) : list Z :=
  flat_map (fun ev => match ev with Get _ t => [t] | _ => [] end) trace.

(** a link as the repository column sees it: the [url] of a link that is
    not selected is dropped *)
Definition hide_unselected_url (lk : link_obj) : link_obj :=
  if is_repository lk then lk
  else {| l_url := None; l_type := l_type lk |}.

Definition hide_unselected_urls (t : tool) : tool :=
  {| biotoolsID := biotoolsID t; name := name t; topic := topic t;
     documentation := documentation t;
     link := option_map (map hide_unselected_url) (link t) |}.

(** the record has an entry in [topic] with this URI *)
Definition has_uri (t : tool) (uri : string) : Prop :=
  exists ts tp, topic t = Some ts /\ In tp ts /\ t_uri tp = Some uri.

Definition files_of (r : run) : files :=
  match r with
  | Exited fs _ _ | Crashed _ fs _ | Hung fs _ => fs
  end.

Definition run_trace (r : run) : list event :=
  match r with
  | Exited _ _ trace | Crashed _ _ trace | Hung _ trace => trace
  end.

(** [int(s)] for the decimal text of an integer *)
Definition int_of_str (s : string) : option Z :=
  option_map Z.of_int (DecimalString.NilZero.int_of_string s).

(** sample scripts and records *)
Definition flaky_script : list reply :=
  [ RequestFailed (Some 502); Body inner_sample; RequestFailed None;
    Body (last_page [second_copy]); Body empty_page ].

Definition no_id_tool : tool :=
  {| biotoolsID := None; name := Some "N"; topic := Some [];
     documentation := Some []; link := Some [] |}.

Definition proteogenomics_tool : tool :=
  {| biotoolsID := Some "pg"; name := Some "PG";
     topic := Some [ {| t_uri := Some "http://edamontology.org/topic_3922" |} ];
     documentation := Some [ {| d_url := Some "https://pg.example/a" |};
                             {| d_url := Some "https://pg.example/b" |} ];
     link := Some [ {| l_url := None; l_type := Some "Mailing list" |} ] |}.

(** the entries that a list of records with distinct identifiers makes *)
Definition entries (l : list tool) : dict :=
  map (fun t => (get_default (biotoolsID t) ""%string, t)) l.

(** a run without its trace *)
Definition result_of (r : run) : run :=
  match r with
  | Exited fs df _ => Exited fs df []
  | Crashed e fs _ => Crashed e fs []
  | Hung fs _ => Hung fs []
  end.

(** two calls come to the same thing, the second on a script with request
    failures that the first does not have *)
Definition same_outcome (o1 o2 : outcome) : Prop :=
  match o1, o2 with
  | Returned l1 rest1 _, Returned l2 rest2 _ =>
      l1 = l2 /\ rest1 = without_failures rest2
  | Raised e1 _, Raised e2 _ => e1 = e2
  | Pending st1 _, Pending st2 _ => st1 = st2
  | _, _ => False
  end.

(** the replies of a registry whose only record, under the first topic,
    has no identifier *)
Definition no_id_script : list reply :=
  Body (last_page [no_id_tool]) :: repeat (Body (last_page [])) 15.

(** * Properties *)

(** ** The error monad and comprehensions *)

Lemma bind_Ok {A B : Type} (r : result A) (k : A -> result B) (b : B) :
  bind r k = Ok b <-> exists a, r = Ok a /\ k a = Ok b.
Proof.
  destruct r as [a|e]; simpl; split.
  - intros H. exists a. split; [reflexivity | exact H].
  - intros (a' & Ha & Hk). injection Ha as ->. exact Hk.
  - discriminate.
  - intros (a' & Ha & _). discriminate.
Qed.

Lemma bind_Raise {A B : Type} (r : result A) (k : A -> result B) (e : exn) :
  bind r k = Raise e <-> r = Raise e \/ exists a, r = Ok a /\ k a = Raise e.
Proof.
  destruct r as [a|e']; simpl; split.
  - intros H. right. exists a. split; [reflexivity | exact H].
  - intros [H | (a' & Ha & Hk)]; [discriminate | ].
    injection Ha as ->. exact Hk.
  - intros H. left. congruence.
  - intros [H | (a' & Ha & _)]; [congruence | discriminate].
Qed.

Lemma getitem_Ok {A : Type} (key : string) (field : option A) (v : A) :
  getitem key field = Ok v <-> field = Some v.
Proof.
  destruct field; simpl; split; intros H; try discriminate; congruence.
Qed.

Lemma getitem_Raise {A : Type} (key : string) (field : option A) (e : exn) :
  getitem key field = Raise e <-> field = None /\ e = KeyError key.
Proof.
  destruct field; simpl; split.
  - discriminate.
  - intros [H _]. discriminate.
  - intros H. injection H as <-. split; reflexivity.
  - intros [_ ->]. reflexivity.
Qed.

Section Comprehension.
Context {A B : Type} (f : A -> result B).

Lemma comprehension_Ok (l : list A) (bs : list B) :
  comprehension f l = Ok bs <-> Forall2 (fun a b => f a = Ok b) l bs.
Proof.
  revert bs. induction l as [|a l IH]; intros bs; simpl.
  - split.
    + intros H. injection H as <-. constructor.
    + intros H. inversion H. reflexivity.
  - rewrite bind_Ok. split.
    + intros (b & Hb & H). apply bind_Ok in H as (bs' & Hbs & H).
      injection H as <-. constructor; [exact Hb | apply IH, Hbs].
    + intros H. inversion H as [|a' b l' bs' Hb Hbs]; subst.
      exists b. split; [exact Hb | ].
      apply IH in Hbs. rewrite Hbs. reflexivity.
Qed.

Lemma comprehension_app (l1 l2 : list A) :
  comprehension f (l1 ++ l2) =
  (bs1 <- comprehension f l1 ;;
   bs2 <- comprehension f l2 ;;
   Ok (bs1 ++ bs2)).
Proof.
  induction l1 as [|a l1 IH]; simpl.
  - destruct (comprehension f l2); reflexivity.
  - destruct (f a) as [b|e]; simpl; [ | reflexivity].
    rewrite IH. destruct (comprehension f l1) as [bs1|e]; simpl;
      [ | reflexivity].
    destruct (comprehension f l2); reflexivity.
Qed.

(** the first element that raises decides the exception *)
Lemma comprehension_first_raise (l1 l2 : list A) (a : A) (e : exn) :
  Forall (fun x => exists b, f x = Ok b) l1 ->
  f a = Raise e ->
  comprehension f (l1 ++ a :: l2) = Raise e.
Proof.
  intros Hl1 Ha. induction Hl1 as [|x l1 (b & Hb) _ IH]; simpl.
  - rewrite Ha. reflexivity.
  - rewrite Hb. simpl. rewrite IH. reflexivity.
Qed.

(** an element that raises makes the comprehension raise, with the
    exception of some element *)
Lemma comprehension_raises (l : list A) (a : A) (e : exn) :
  In a l -> f a = Raise e ->
  exists a' e', In a' l /\ f a' = Raise e' /\ comprehension f l = Raise e'.
Proof.
  induction l as [|x l IH]; simpl; [intros [] | ].
  intros [-> | Hin] Ha.
  - exists a, e. rewrite Ha. auto.
  - destruct (f x) as [b|e'] eqn:Hx; simpl.
    + destruct (IH Hin Ha) as (a' & e' & Hin' & Ha' & Hc).
      exists a', e'. rewrite Hc. auto.
    + exists x, e'. auto.
Qed.

Lemma comprehension_total (l : list A) :
  Forall (fun x => exists b, f x = Ok b) l ->
  exists bs, comprehension f l = Ok bs.
Proof.
  induction 1 as [|x l (b & Hb) _ (bs & IH)]; simpl.
  - exists []. reflexivity.
  - exists (b :: bs). rewrite Hb. simpl. rewrite IH. reflexivity.
Qed.
End Comprehension.

(** ** The transformer builds the table row by row *)

Lemma append_tool_row (c : columns) (t : tool) :
  append_tool c t = (r <- row_of t ;; Ok (add_row c r)).
Proof.
  unfold append_tool, row_of.
  destruct (topic_uris t) as [uris|e]; simpl; [ | reflexivity].
  destruct (documentation_urls t) as [docs|e]; simpl; [ | reflexivity].
  destruct (repository_urls t) as [repos|e]; simpl; reflexivity.
Qed.

Lemma append_tools_rows (l : list tool) (c : columns) :
  append_tools c l =
  (rs <- comprehension row_of l ;; Ok (fold_left add_row rs c)).
Proof.
  revert c. induction l as [|t l IH]; intros c; simpl; [reflexivity | ].
  rewrite append_tool_row.
  destruct (row_of t) as [r|e]; simpl; [ | reflexivity].
  rewrite IH. destruct (comprehension row_of l); reflexivity.
Qed.

Lemma aligned_add_row (c : columns) (r : row) (n : nat) :
  aligned c n -> aligned (add_row c r) (S n).
Proof.
  unfold aligned, add_row. simpl.
  rewrite !length_app. simpl. lia.
Qed.

Lemma DataFrame_snoc (i n : list string) (g p m : list bool)
  (d r : list string) (r0 : row) (k : nat) :
  length i = k -> length n = k -> length g = k -> length p = k ->
  length m = k -> length d = k -> length r = k ->
  DataFrame (i ++ [r_id r0]) (n ++ [r_name r0]) (g ++ [r_is_genomics r0])
    (p ++ [r_is_proteomics r0]) (m ++ [r_is_machine_learning r0])
    (d ++ [r_documentation r0]) (r ++ [r_repository r0])
  = DataFrame i n g p m d r ++ [r0].
Proof.
  revert i n g p m d r.
  induction k as [|k IH]; intros i n g p m d r Hi Hn Hg Hp Hm Hd Hr.
  - destruct i, n, g, p, m, d, r; try discriminate.
    destruct r0; reflexivity.
  - destruct i, n, g, p, m, d, r; try discriminate.
    simpl in *. f_equal. apply IH; congruence.
Qed.

Lemma frame_of_add_row (c : columns) (r : row) (n : nat) :
  aligned c n -> frame_of (add_row c r) = frame_of c ++ [r].
Proof.
  intros (Hi & Hn & Hg & Hp & Hm & Hd & Hr).
  unfold frame_of, add_row. simpl.
  apply (DataFrame_snoc _ _ _ _ _ _ _ _ n); assumption.
Qed.

Lemma frame_of_rows (rs : list row) (c : columns) (n : nat) :
  aligned c n -> frame_of (fold_left add_row rs c) = frame_of c ++ rs.
Proof.
  revert c n. induction rs as [|r rs IH]; intros c n Hc; simpl.
  - rewrite app_nil_r. reflexivity.
  - rewrite (IH _ (S n)) by (apply aligned_add_row; exact Hc).
    rewrite (frame_of_add_row _ _ n Hc), <- app_assoc. reflexivity.
Qed.

(** [tools_to_df] yields the rows of its records, in order, or the first
    exception that a record raises *)
Lemma tools_to_df_rows (l : list tool) :
  tools_to_df l = comprehension row_of l.
Proof.
  unfold tools_to_df. rewrite append_tools_rows.
  destruct (comprehension row_of l) as [rs|e]; simpl; [ | reflexivity].
  f_equal. apply (frame_of_rows rs no_columns 0).
  repeat split.
Qed.

Lemma tools_to_df_lookup (l : list tool) (df : list row) :
  tools_to_df l = Ok df ->
  length df = length l /\
  forall (i : nat) (t : tool), l !! i = Some t ->
    exists r, df !! i = Some r /\ row_of t = Ok r.
Proof.
  rewrite tools_to_df_rows, comprehension_Ok. intros H. split.
  - symmetry. eapply Forall2_length, H.
  - intros i t Hi.
    destruct (Forall2_lookup_l _ _ _ _ _ H Hi) as (r & Hr & Hrow).
    exists r. split; assumption.
Qed.

(** every exception of the transformer is a [KeyError] *)
Lemma comprehension_getitem_KeyError {A B : Type} (key : string)
  (proj : A -> option B) (l : list A) (e : exn) :
  comprehension (fun a => getitem key (proj a)) l = Raise e ->
  e = KeyError key.
Proof.
  induction l as [|a l IH]; simpl; [discriminate | ].
  destruct (proj a); simpl.
  - destruct (comprehension _ l); simpl; [discriminate | ].
    intros H. apply IH. congruence.
  - congruence.
Qed.

Lemma topic_uris_Raise (t : tool) (e : exn) :
  topic_uris t = Raise e -> exists key, e = KeyError key.
Proof.
  unfold topic_uris. destruct (topic t) as [ts|]; simpl.
  - destruct (comprehension _ ts) eqn:Hc; simpl; [discriminate | ].
    intros H. injection H as <-.
    apply comprehension_getitem_KeyError in Hc. eauto.
  - intros H. injection H as <-. eauto.
Qed.

Lemma documentation_urls_Raise (t : tool) (e : exn) :
  documentation_urls t = Raise e -> exists key, e = KeyError key.
Proof.
  unfold documentation_urls. destruct (documentation t) as [ds|]; simpl.
  - destruct (comprehension _ ds) eqn:Hc; simpl; [discriminate | ].
    intros H. injection H as <-.
    apply comprehension_getitem_KeyError in Hc. eauto.
  - intros H. injection H as <-. eauto.
Qed.

Lemma repository_links_Raise (links : list link_obj) (e : exn) :
  repository_links links = Raise e -> exists key, e = KeyError key.
Proof.
  induction links as [|l links IH]; simpl; [discriminate | ].
  destruct (l_type l) as [ty|]; simpl; [ | intros H; injection H as <-; eauto].
  destruct (contains "Repository" ty); [ | exact IH].
  destruct (l_url l); simpl; [ | intros H; injection H as <-; eauto].
  destruct (repository_links links); simpl; [discriminate | ].
  intros H. apply IH. congruence.
Qed.

Lemma repository_urls_Raise (t : tool) (e : exn) :
  repository_urls t = Raise e -> exists key, e = KeyError key.
Proof.
  unfold repository_urls. destruct (link t) as [ls|]; simpl.
  - destruct (repository_links ls) eqn:Hc; simpl; [discriminate | ].
    intros H. injection H as <-.
    apply repository_links_Raise in Hc. exact Hc.
  - intros H. injection H as <-. eauto.
Qed.

Lemma row_of_Raise (t : tool) (e : exn) :
  row_of t = Raise e -> exists key, e = KeyError key.
Proof.
  unfold row_of.
  destruct (topic_uris t) eqn:Ht; simpl;
    [ | intros H; injection H as <-; eapply topic_uris_Raise, Ht].
  destruct (documentation_urls t) eqn:Hd; simpl;
    [ | intros H; injection H as <-; eapply documentation_urls_Raise, Hd].
  destruct (repository_urls t) eqn:Hr; simpl; [discriminate | ].
  intros H; injection H as <-; eapply repository_urls_Raise, Hr.
Qed.

(** a record whose row cannot be built makes the whole conversion raise *)
Lemma tools_to_df_raises (l : list tool) (t : tool) (e : exn) :
  In t l -> row_of t = Raise e ->
  exists key, tools_to_df l = Raise (KeyError key).
Proof.
  intros Hin Ht. rewrite tools_to_df_rows.
  destruct (comprehension_raises row_of l t e Hin Ht)
    as (t' & e' & _ & Ht' & Hc).
  destruct (row_of_Raise t' e' Ht') as (key & ->).
  exists key. exact Hc.
Qed.

Lemma convert_raises (fs : files) (l : list tool) (trace : list event)
  (e : exn) :
  tools_to_df l = Raise e ->
  convert fs l trace =
  Crashed e fs (trace ++ [ Log INFO "Converting tools to DataFrame." ]).
Proof. intros H. unfold convert. rewrite H. reflexivity. Qed.

(** ** Which records the transformer accepts *)

Lemma comprehension_getitem_total {A B : Type} (key : string)
  (proj : A -> option B) (l : list A) :
  forallb (fun a => bool_decide (is_Some (proj a))) l = true ->
  exists bs, comprehension (fun a => getitem key (proj a)) l = Ok bs.
Proof.
  intros H. apply comprehension_total.
  rewrite forallb_forall in H. apply List.Forall_forall. intros a Ha.
  specialize (H a Ha). apply bool_decide_eq_true in H as [b Hb].
  exists b. rewrite Hb. reflexivity.
Qed.

Lemma repository_links_total (ls : list link_obj) :
  forallb (fun l =>
             match l_type l with
             | Some ty =>
                 if contains "Repository" ty
                 then bool_decide (is_Some (l_url l)) else true
             | None => false
             end) ls = true ->
  exists urls,
    repository_links ls = Ok urls /\
    Forall2 (fun l u => l_url l = Some u) (List.filter is_repository ls) urls.
Proof.
  induction ls as [|l ls IH]; simpl.
  - intros _. exists []. split; [reflexivity | constructor].
  - rewrite andb_true_iff. intros [Hl Hls].
    destruct (IH Hls) as (urls & Hurls & Hall). clear IH.
    unfold is_repository at 1.
    destruct (l_type l) as [ty|]; [ | discriminate]. simpl.
    destruct (contains "Repository" ty).
    + apply bool_decide_eq_true in Hl as [u Hu].
      exists (u :: urls). rewrite Hu. simpl. rewrite Hurls. simpl.
      split; [reflexivity | constructor; assumption].
    + exists urls. split; assumption.
Qed.

Lemma row_of_total (t : tool) :
  well_formed t = true -> exists r, row_of t = Ok r.
Proof.
  unfold well_formed, row_of, topic_uris, documentation_urls, repository_urls.
  destruct (topic t) as [ts|]; [ | discriminate].
  destruct (documentation t) as [ds|]; [ | discriminate].
  destruct (link t) as [ls|]; [ | discriminate].
  rewrite !andb_true_iff. intros [[Hts Hds] Hls]. simpl.
  destruct (comprehension_getitem_total "uri" t_uri ts Hts) as (us & ->).
  destruct (comprehension_getitem_total "url" d_url ds Hds) as (ds' & ->).
  destruct (repository_links_total ls Hls) as (urls & -> & _).
  simpl. eauto.
Qed.

Lemma tools_to_df_total (l : list tool) :
  Forall (fun t => well_formed t = true) l ->
  exists df, tools_to_df l = Ok df.
Proof.
  intros H. rewrite tools_to_df_rows. apply comprehension_total.
  eapply List.Forall_impl; [ | exact H]. intros t. apply row_of_total.
Qed.

(** the table of a list of accepted records, row by row *)
Lemma tools_to_df_well_formed (l : list tool) :
  Forall (fun t => well_formed t = true) l ->
  exists df,
    tools_to_df l = Ok df /\ length df = length l /\
    forall (i : nat) (t : tool), l !! i = Some t ->
      exists r, df !! i = Some r /\ row_of t = Ok r.
Proof.
  intros H. destruct (tools_to_df_total l H) as (df & Hdf).
  exists df. split; [exact Hdf | ]. apply tools_to_df_lookup, Hdf.
Qed.

(** ** Classification *)

Lemma any_topic_true (topics : list string) (uris : gset string) :
  any_topic topics uris = true <->
  exists x, In x topics /\ edam_uri x ∈ uris.
Proof.
  unfold any_topic. rewrite existsb_exists.
  split; intros (x & Hx & H); exists x; split; try exact Hx.
  - apply bool_decide_eq_true in H. exact H.
  - apply bool_decide_eq_true. exact H.
Qed.

Lemma any_topic_false (topics : list string) (uris : gset string) :
  any_topic topics uris = false <->
  forall x, In x topics -> edam_uri x ∉ uris.
Proof.
  rewrite <- not_true_iff_false, any_topic_true. split.
  - intros H x Hx Hin. apply H. eauto.
  - intros H (x & Hx & Hin). exact (H x Hx Hin).
Qed.

(** the set holds the [uri] of each entry of [topic], and nothing else *)
Lemma topic_uris_elem (t : tool) (uris : gset string) (u : string) :
  topic_uris t = Ok uris ->
  u ∈ uris <->
  exists ts tp, topic t = Some ts /\ In tp ts /\ t_uri tp = Some u.
Proof.
  unfold topic_uris. intros H.
  apply bind_Ok in H as (ts & Hts & H). apply getitem_Ok in Hts.
  apply bind_Ok in H as (us & Hus & H). injection H as <-.
  apply comprehension_Ok in Hus. rewrite elem_of_list_to_set, list_elem_of_In.
  split.
  - intros Hu. exists ts.
    assert (exists tp, In tp ts /\ t_uri tp = Some u) as (tp & Hin & Htp).
    { clear Hts. induction Hus as [|tp u' ts us Htp _ IH];
        simpl in Hu; [contradiction | ].
      destruct Hu as [-> | Hu].
      - exists tp. apply getitem_Ok in Htp. simpl. auto.
      - destruct (IH Hu) as (tp' & Hin & Htp'). exists tp'. simpl. auto. }
    exists tp. auto.
  - intros (ts' & tp & Hts' & Hin & Htp).
    assert (ts' = ts) as -> by congruence. clear Hts Hts'.
    induction Hus as [|tp' u' ts us Htp' _ IH]; simpl in Hin; [contradiction | ].
    destruct Hin as [-> | Hin].
    + apply getitem_Ok in Htp'. left. congruence.
    + right. apply IH, Hin.
Qed.

Lemma row_of_flags (t : tool) (r : row) :
  row_of t = Ok r ->
  exists uris,
    topic_uris t = Ok uris /\
    r_is_genomics r = any_topic GENOMIC_EDAM_TOPICS uris /\
    r_is_proteomics r = any_topic PROTEOMICS_EDAM_TOPICS uris /\
    r_is_machine_learning r = any_topic MACHINE_LEARNING_EDAM_TOPICS uris.
Proof.
  unfold row_of. intros H.
  apply bind_Ok in H as (uris & Huris & H).
  apply bind_Ok in H as (docs & _ & H).
  apply bind_Ok in H as (repos & _ & H).
  injection H as <-. exists uris. simpl. auto.
Qed.

(** C6: in the table of a list of accepted records, the row of a record
    whose [topic] entries include the URI
    [http://edamontology.org/topic_0622] has [is_genomics = true]; when no
    other URI of the record equals the prefix [http://edamontology.org/topic_]
    followed by an identifier of the proteomics or machine-learning sets,
    the row has [is_proteomics = false] and [is_machine_learning = false]. *)
Theorem genomics_classification (l : list tool) :
  Forall (fun t => well_formed t = true) l ->
  exists df,
    tools_to_df l = Ok df /\
    forall (i : nat) (t : tool) (ts : list topic_obj),
      l !! i = Some t ->
      topic t = Some ts ->
      (exists tp, In tp ts /\
                  t_uri tp = Some "http://edamontology.org/topic_0622") ->
      exists r,
        df !! i = Some r /\
        r_is_genomics r = true /\
        ((forall tp u, In tp ts -> t_uri tp = Some u ->
                       u <> "http://edamontology.org/topic_0622" ->
                       forall x,
                         In x (PROTEOMICS_EDAM_TOPICS
                               ++ MACHINE_LEARNING_EDAM_TOPICS) ->
                         u <> ("http://edamontology.org/topic_" ++ x)%string) ->
         r_is_proteomics r = false /\ r_is_machine_learning r = false).
Proof.
  intros Hwf. destruct (tools_to_df_well_formed l Hwf) as (df & Hdf & _ & Hrows).
  exists df. split; [exact Hdf | ].
  intros i t ts Hi Hts (tp0 & Hin0 & Htp0).
  destruct (Hrows i t Hi) as (r & Hr & Hrow).
  destruct (row_of_flags t r Hrow) as (uris & Huris & Hg & Hp & Hm).
  exists r. split; [exact Hr | ]. split.
  - rewrite Hg. apply any_topic_true. exists "0622". split.
    + simpl. auto.
    + apply (topic_uris_elem t uris _ Huris). exists ts, tp0. auto.
  - intros Hother.
    assert (forall x, In x (PROTEOMICS_EDAM_TOPICS
                            ++ MACHINE_LEARNING_EDAM_TOPICS) ->
                      edam_uri x ∉ uris) as Hnone.
    { intros x Hx Hin.
      apply (topic_uris_elem t uris _ Huris) in Hin
        as (ts' & tp & Hts' & Hin & Htp).
      assert (ts' = ts) as -> by congruence.
      destruct (string_dec (edam_uri x) "http://edamontology.org/topic_0622")
        as [Heq | Hne].
      - simpl in Hx. unfold edam_uri in Heq.
        repeat (destruct Hx as [<- | Hx]; [discriminate Heq | ]).
        contradiction.
      - exact (Hother tp (edam_uri x) Hin Htp Hne x Hx eq_refl). }
    rewrite Hp, Hm. split; apply any_topic_false; intros x Hx;
      apply Hnone, in_or_app; auto.
Qed.

Lemma genomics_classification_witness :
  exists df,
    tools_to_df [genomics_tool] = Ok df /\
    exists r, df !! 0%nat = Some r /\ r_is_genomics r = true /\
              r_is_proteomics r = false /\ r_is_machine_learning r = false.
Proof.
  assert (Forall (fun t => well_formed t = true) [genomics_tool]) as Hwf.
  { repeat constructor. }
  destruct (genomics_classification [genomics_tool] Hwf) as (df & Hdf & H).
  exists df. split; [exact Hdf | ].
  destruct (H 0%nat genomics_tool
              [ {| t_uri := Some "http://edamontology.org/topic_0622" |};
                {| t_uri := Some "http://edamontology.org/topic_0102" |} ]
              eq_refl eq_refl) as (r & Hr & Hg & Hrest).
  { eexists. split; [left; reflexivity | reflexivity]. }
  exists r. split; [exact Hr | ]. split; [exact Hg | ].
  apply Hrest. intros tp u Hin Hu Hne x Hx. simpl in Hin, Hx.
  destruct Hin as [<- | [<- | []]]; simpl in Hu; injection Hu as <-.
  - contradiction.
  - repeat (destruct Hx as [<- | Hx]; [discriminate | ]). contradiction.
Defined.

(** ** The repository column *)

Lemma prefix_app (n post : string) : String.prefix n (n ++ post) = true.
Proof.
  induction n as [|c n IH]; simpl.
  - destruct post; reflexivity.
  - destruct (ascii_dec c c); [exact IH | contradiction].
Qed.

Lemma prefix_split (n h : string) :
  String.prefix n h = true -> exists post, h = (n ++ post)%string.
Proof.
  revert h. induction n as [|c n IH]; intros h.
  - intros _. exists h. reflexivity.
  - destruct h as [|c' h]; simpl; [discriminate | ].
    destruct (ascii_dec c c') as [<- | _]; [ | discriminate].
    intros H. destruct (IH h H) as (post & ->). exists post. reflexivity.
Qed.

(** [contains] is the substring test: the needle occurs, character for
    character, somewhere in the string *)
Lemma contains_substring (n h : string) :
  contains n h = true <-> exists pre post, h = (pre ++ n ++ post)%string.
Proof.
  split.
  - induction h as [|c h IH].
    + cbn [contains]. rewrite orb_false_r. intros H.
      destruct (prefix_split _ _ H) as (post & ->).
      exists EmptyString, post. reflexivity.
    + cbn [contains]. rewrite orb_true_iff. intros [H | H].
      * destruct (prefix_split _ _ H) as (post & ->).
        exists EmptyString, post. reflexivity.
      * destruct (IH H) as (pre & post & ->).
        exists (String c pre), post. reflexivity.
  - intros (pre & post & ->). induction pre as [|c pre IH].
    + change (contains n (n ++ post)%string = true).
      assert (String.prefix n (n ++ post) = true) as H by apply prefix_app.
      destruct (n ++ post)%string; cbn [contains]; rewrite H; reflexivity.
    + change (contains n (String c (pre ++ n ++ post)%string) = true).
      cbn [contains].
      rewrite IH. apply orb_true_r.
Qed.

Lemma row_of_repository (t : tool) (r : row) (links : list link_obj) :
  row_of t = Ok r -> link t = Some links ->
  exists urls,
    Forall2 (fun lk u => l_url lk = Some u) (List.filter is_repository links)
      urls /\
    r_repository r = join "," urls.
Proof.
  unfold row_of, repository_urls. intros H Hlinks. rewrite Hlinks in H.
  apply bind_Ok in H as (uris & _ & H).
  apply bind_Ok in H as (docs & _ & H).
  apply bind_Ok in H as (repos & Hrepos & H). injection H as <-.
  simpl in Hrepos. apply bind_Ok in Hrepos as (urls & Hurls & Hrepos).
  injection Hrepos as <-. exists urls. split; [ | reflexivity].
  clear Hlinks. revert urls Hurls.
  induction links as [|lk links IH]; simpl; intros urls Hurls.
  - injection Hurls as <-. constructor.
  - unfold is_repository at 1.
    apply bind_Ok in Hurls as (ty & Hty & Hurls). apply getitem_Ok in Hty.
    rewrite Hty. destruct (contains "Repository" ty).
    + apply bind_Ok in Hurls as (u & Hu & Hurls). apply getitem_Ok in Hu.
      apply bind_Ok in Hurls as (urls' & Hurls' & Hurls).
      injection Hurls as <-. constructor; [exact Hu | apply IH, Hurls'].
    + apply IH, Hurls.
Qed.

(** C7: in the table of a list of accepted records, the repository field
    of a record's row is the comma-join, in the order of [link], of the
    URLs of exactly the links whose type contains the substring
    "Repository", compared character for character; the record with the
    links Repository/A, Other/B, SourceRepository/C gets "A,C". *)
Theorem repository_filter :
  (forall l : list tool,
     Forall (fun t => well_formed t = true) l ->
     exists df,
       tools_to_df l = Ok df /\
       forall (i : nat) (t : tool) (links : list link_obj),
         l !! i = Some t -> link t = Some links ->
         exists r urls,
           df !! i = Some r /\
           Forall2 (fun lk u => l_url lk = Some u)
             (List.filter is_repository links) urls /\
           r_repository r = join "," urls)
  /\ (forall lk : link_obj,
        is_repository lk = true <->
        exists pre post,
          l_type lk = Some (pre ++ "Repository" ++ post)%string)
  /\ is_repository {| l_url := Some "D"; l_type := Some "repository" |} = false
  /\ tools_to_df [linked_tool] =
     Ok [ {| r_id := "t"; r_name := "T"; r_is_genomics := false;
             r_is_proteomics := false; r_is_machine_learning := false;
             r_documentation := ""; r_repository := "A,C" |} ].
Proof.
  split; [ | split; [ | split; reflexivity]].
  - intros l Hwf.
    destruct (tools_to_df_well_formed l Hwf) as (df & Hdf & _ & Hrows).
    exists df. split; [exact Hdf | ].
    intros i t links Hi Hlinks.
    destruct (Hrows i t Hi) as (r & Hr & Hrow).
    destruct (row_of_repository t r links Hrow Hlinks) as (urls & Hurls & Hj).
    exists r, urls. auto.
  - intros lk. unfold is_repository. destruct (l_type lk) as [ty|].
    + rewrite contains_substring. split.
      * intros (pre & post & ->). eauto.
      * intros (pre & post & H). injection H as ->. eauto.
    + split; [discriminate | intros (pre & post & H); discriminate].
Qed.

Lemma repository_filter_witness :
  exists df,
    tools_to_df [linked_tool] = Ok df /\
    exists r, df !! 0%nat = Some r /\ r_repository r = "A,C".
Proof.
  assert (Forall (fun t => well_formed t = true) [linked_tool]) as Hwf.
  { repeat constructor. }
  destruct (proj1 repository_filter [linked_tool] Hwf) as (df & Hdf & H).
  exists df. split; [exact Hdf | ].
  destruct (H 0%nat linked_tool sample_links eq_refl eq_refl)
    as (r & urls & Hr & Hurls & Hj).
  exists r. split; [exact Hr | ]. rewrite Hj.
  simpl in Hurls.
  inversion Hurls as [|lk1 u1 ? us1 H1 Hurls1]; subst.
  inversion Hurls1 as [|lk2 u2 ? us2 H2 Hurls2]; subst.
  inversion Hurls2; subst.
  simpl in H1, H2. injection H1 as <-. injection H2 as <-. reflexivity.
Defined.

(** ** Required and optional fields *)

Lemma row_of_no_topic (t : tool) :
  topic t = None -> row_of t = Raise (KeyError "topic").
Proof. intros H. unfold row_of, topic_uris. rewrite H. reflexivity. Qed.

Lemma row_of_no_documentation (t : tool) (uris : gset string) :
  topic_uris t = Ok uris -> documentation t = None ->
  row_of t = Raise (KeyError "documentation").
Proof.
  intros Hu H. unfold row_of, documentation_urls. rewrite Hu, H. reflexivity.
Qed.

Lemma row_of_no_link (t : tool) (uris : gset string) (docs : string) :
  topic_uris t = Ok uris -> documentation_urls t = Ok docs -> link t = None ->
  row_of t = Raise (KeyError "link").
Proof.
  intros Hu Hd H. unfold row_of, repository_urls. rewrite Hu, Hd, H.
  reflexivity.
Qed.

Lemma row_of_missing (t : tool) :
  topic t = None \/ documentation t = None \/ link t = None ->
  exists key, row_of t = Raise (KeyError key).
Proof.
  intros H. destruct (row_of t) as [r|e] eqn:Hrow.
  - exfalso. unfold row_of, topic_uris, documentation_urls, repository_urls
      in Hrow.
    apply bind_Ok in Hrow as (uris & Hu & Hrow).
    apply bind_Ok in Hrow as (docs & Hd & Hrow).
    apply bind_Ok in Hrow as (repos & Hr & _).
    apply bind_Ok in Hu as (? & Hu & _). apply getitem_Ok in Hu.
    apply bind_Ok in Hd as (? & Hd & _). apply getitem_Ok in Hd.
    apply bind_Ok in Hr as (? & Hr & _). apply getitem_Ok in Hr.
    destruct H as [H | [H | H]]; congruence.
  - destruct (row_of_Raise t e Hrow) as (key & ->). eauto.
Qed.

Lemma row_of_id_name (t : tool) (r : row) :
  row_of t = Ok r ->
  r_id r = get_default (biotoolsID t) "" /\ r_name r = get_default (name t) "".
Proof.
  unfold row_of. intros H.
  apply bind_Ok in H as (uris & _ & H).
  apply bind_Ok in H as (docs & _ & H).
  apply bind_Ok in H as (repos & _ & H).
  injection H as <-. split; reflexivity.
Qed.

Lemma main_raw_cache_raises (l : list tool) (script : list reply) (e : exn) :
  tools_to_df l = Raise e ->
  main (raw_cache_only l) script =
  Crashed e (raw_cache_only l)
    [ Log INFO "bio.tools cache file found. Loading data from cache.";
      Log INFO "Converting tools to DataFrame." ].
Proof.
  intros H. unfold main, raw_cache_only. cbn [DF_CACHE_FILE TOOL_CACHE_FILE].
  rewrite (convert_raises _ _ _ _ H). reflexivity.
Qed.

Lemma tools_to_df_first_raise (l1 l2 : list tool) (t : tool) (e : exn) :
  Forall (fun t => well_formed t = true) l1 ->
  row_of t = Raise e ->
  tools_to_df (l1 ++ t :: l2) = Raise e.
Proof.
  intros Hwf Ht. rewrite tools_to_df_rows.
  apply comprehension_first_raise; [ | exact Ht].
  eapply List.Forall_impl; [ | exact Hwf]. intros x. apply row_of_total.
Qed.

(** C8: a list with a record that has no [topic] makes the transformer
    raise, a [KeyError] for "topic" when the records before it are
    accepted; no table is returned, the driver does not catch the
    exception and writes no table.  A record without [biotoolsID] or
    [name] is accepted, and its row has the empty string in that place. *)
Theorem missing_topic_is_fatal :
  (forall (l : list tool) (t : tool),
     In t l -> topic t = None ->
     exists key, tools_to_df l = Raise (KeyError key))
  /\ (forall (l1 l2 : list tool) (t : tool),
        Forall (fun t => well_formed t = true) l1 -> topic t = None ->
        tools_to_df (l1 ++ t :: l2) = Raise (KeyError "topic"))
  /\ (forall (fs : files) (l : list tool) (t : tool) (trace : list event),
        In t l -> topic t = None ->
        exists key,
          convert fs l trace =
          Crashed (KeyError key) fs
            (trace ++ [ Log INFO "Converting tools to DataFrame." ]))
  /\ (forall (l : list tool) (t : tool) (script : list reply),
        In t l -> topic t = None ->
        exists key,
          main (raw_cache_only l) script =
          Crashed (KeyError key) (raw_cache_only l)
            [ Log INFO "bio.tools cache file found. Loading data from cache.";
              Log INFO "Converting tools to DataFrame." ])
  /\ (forall l : list tool,
        Forall (fun t => well_formed t = true) l ->
        exists df,
          tools_to_df l = Ok df /\
          forall (i : nat) (t : tool),
            l !! i = Some t ->
            exists r,
              df !! i = Some r /\
              (biotoolsID t = None -> r_id r = "") /\
              (name t = None -> r_name r = "") /\
              (forall s, biotoolsID t = Some s -> r_id r = s) /\
              (forall s, name t = Some s -> r_name r = s))
  /\ well_formed anonymous_tool = true.
Proof.
  split; [ | split; [ | split; [ | split; [ | split; [ | reflexivity]]]]].
  - intros l t Hin Ht.
    apply (tools_to_df_raises l t _ Hin (row_of_no_topic t Ht)).
  - intros l1 l2 t Hwf Ht.
    apply tools_to_df_first_raise; [exact Hwf | apply row_of_no_topic, Ht].
  - intros fs l t trace Hin Ht.
    destruct (tools_to_df_raises l t _ Hin (row_of_no_topic t Ht))
      as (key & Hkey).
    exists key. apply convert_raises, Hkey.
  - intros l t script Hin Ht.
    destruct (tools_to_df_raises l t _ Hin (row_of_no_topic t Ht))
      as (key & Hkey).
    exists key. apply main_raw_cache_raises, Hkey.
  - intros l Hwf.
    destruct (tools_to_df_well_formed l Hwf) as (df & Hdf & _ & Hrows).
    exists df. split; [exact Hdf | ].
    intros i t Hi. destruct (Hrows i t Hi) as (r & Hr & Hrow).
    exists r. split; [exact Hr | ].
    destruct (row_of_id_name t r Hrow) as [-> ->].
    repeat split; intros; match goal with H : _ = _ |- _ => rewrite H end;
      reflexivity.
Qed.

Lemma missing_topic_is_fatal_witness :
  (exists key,
     tools_to_df [genomics_tool; no_topic_tool; linked_tool] =
     Raise (KeyError key))
  /\ tools_to_df ([genomics_tool] ++ no_topic_tool :: [linked_tool]) =
     Raise (KeyError "topic")
  /\ (exists key,
        convert no_files [no_topic_tool] [] =
        Crashed (KeyError key) no_files
          ([] ++ [ Log INFO "Converting tools to DataFrame." ]))
  /\ exists df,
       tools_to_df [anonymous_tool] = Ok df /\
       exists r, df !! 0%nat = Some r /\ r_id r = "" /\ r_name r = "".
Proof.
  destruct missing_topic_is_fatal as (H1 & H2 & H3 & _ & H4 & _).
  split; [ | split; [ | split]].
  - apply (H1 _ no_topic_tool); [simpl; auto | reflexivity].
  - apply H2; [repeat constructor | reflexivity].
  - apply (H3 _ _ no_topic_tool); [simpl; auto | reflexivity].
  - destruct (H4 [anonymous_tool]) as (df & Hdf & H);
      [repeat constructor | ].
    exists df. split; [exact Hdf | ].
    destruct (H 0%nat anonymous_tool eq_refl) as (r & Hr & Hid & Hname & _).
    exists r. split; [exact Hr | ]. split; [apply Hid | apply Hname];
      reflexivity.
Defined.

(** C10: a list with a record that has no [documentation] or no [link]
    makes the transformer raise a [KeyError], the one of that key when the
    records before it are accepted and the record's earlier fields are
    there; the driver does not catch it. *)
Theorem missing_documentation_or_link_is_fatal :
  (forall (l : list tool) (t : tool),
     In t l -> documentation t = None \/ link t = None ->
     exists key, tools_to_df l = Raise (KeyError key))
  /\ (forall (l1 l2 : list tool) (t : tool) (uris : gset string),
        Forall (fun t => well_formed t = true) l1 ->
        topic_uris t = Ok uris -> documentation t = None ->
        tools_to_df (l1 ++ t :: l2) = Raise (KeyError "documentation"))
  /\ (forall (l1 l2 : list tool) (t : tool) (uris : gset string)
             (docs : string),
        Forall (fun t => well_formed t = true) l1 ->
        topic_uris t = Ok uris -> documentation_urls t = Ok docs ->
        link t = None ->
        tools_to_df (l1 ++ t :: l2) = Raise (KeyError "link"))
  /\ (forall (fs : files) (l : list tool) (t : tool) (trace : list event),
        In t l -> documentation t = None \/ link t = None ->
        exists key,
          convert fs l trace =
          Crashed (KeyError key) fs
            (trace ++ [ Log INFO "Converting tools to DataFrame." ]))
  /\ (forall (l : list tool) (t : tool) (script : list reply),
        In t l -> documentation t = None \/ link t = None ->
        exists key,
          main (raw_cache_only l) script =
          Crashed (KeyError key) (raw_cache_only l)
            [ Log INFO "bio.tools cache file found. Loading data from cache.";
              Log INFO "Converting tools to DataFrame." ]).
Proof.
  split; [ | split; [ | split; [ | split]]].
  - intros l t Hin Ht.
    destruct (row_of_missing t (or_intror Ht)) as (key & Hkey).
    apply (tools_to_df_raises l t _ Hin Hkey).
  - intros l1 l2 t uris Hwf Hu Ht.
    apply tools_to_df_first_raise; [exact Hwf | ].
    apply (row_of_no_documentation t uris Hu Ht).
  - intros l1 l2 t uris docs Hwf Hu Hd Ht.
    apply tools_to_df_first_raise; [exact Hwf | ].
    apply (row_of_no_link t uris docs Hu Hd Ht).
  - intros fs l t trace Hin Ht.
    destruct (row_of_missing t (or_intror Ht)) as (key & Hkey).
    destruct (tools_to_df_raises l t _ Hin Hkey) as (key' & Hkey').
    exists key'. apply convert_raises, Hkey'.
  - intros l t script Hin Ht.
    destruct (row_of_missing t (or_intror Ht)) as (key & Hkey).
    destruct (tools_to_df_raises l t _ Hin Hkey) as (key' & Hkey').
    exists key'. apply main_raw_cache_raises, Hkey'.
Qed.

Lemma missing_documentation_or_link_is_fatal_witness :
  (exists key,
     tools_to_df [genomics_tool; no_link_tool] = Raise (KeyError key))
  /\ tools_to_df ([genomics_tool] ++ no_documentation_tool :: [linked_tool]) =
     Raise (KeyError "documentation")
  /\ tools_to_df ([genomics_tool] ++ no_link_tool :: []) =
     Raise (KeyError "link")
  /\ (exists key,
        convert no_files [no_documentation_tool] [] =
        Crashed (KeyError key) no_files
          ([] ++ [ Log INFO "Converting tools to DataFrame." ])).
Proof.
  destruct missing_documentation_or_link_is_fatal as (H1 & H2 & H3 & H4 & _).
  split; [ | split; [ | split]].
  - apply (H1 _ no_link_tool); [simpl; auto | right; reflexivity].
  - apply (H2 _ _ _ ∅); [repeat constructor | reflexivity | reflexivity].
  - apply (H3 _ _ _ ∅ EmptyString);
      [repeat constructor | reflexivity | reflexivity | reflexivity].
  - apply (H4 _ _ no_documentation_tool); [simpl; auto | left; reflexivity].
Defined.

(** ** The fetcher *)

Lemma requests_app (tr1 tr2 : list event) :
  requests (tr1 ++ tr2) = requests tr1 ++ requests tr2.
Proof. apply flat_map_app. Qed.

Lemma sleeps_app (tr1 tr2 : list event) :
  sleeps (tr1 ++ tr2) = sleeps tr1 ++ sleeps tr2.
Proof. apply flat_map_app. Qed.

Lemma logged_app (lvl : level) (tr1 tr2 : list event) :
  logged lvl (tr1 ++ tr2) = logged lvl tr1 ++ logged lvl tr2.
Proof. apply flat_map_app. Qed.

Lemma requests_attempt (topic_id : string) (st : locals) :
  requests (attempt topic_id st) = [page_url topic_id (page st)].
Proof. reflexivity. Qed.

(** one iteration, by the outcome of the [try] body *)
Lemma fetch_loop_step (topic_id : string) (r : reply) (rest : list reply)
  (st : locals) (trace : list event) :
  fetch_loop topic_id (r :: rest) st trace =
  match try_body st r with
  | Ok (Break, st') => Returned (tools st') rest (trace ++ attempt topic_id st)
  | Ok (Next, st') => fetch_loop topic_id rest st' (trace ++ attempt topic_id st)
  | Raise e =>
      match request_exception e with
      | Some response =>
          match server_error response with
          | Some status_code =>
              fetch_loop topic_id rest st
                (trace ++ attempt topic_id st
                 ++ [ Log WARNING (retry_message status_code); Sleep 5 ])
          | None => fetch_loop topic_id rest st (trace ++ attempt topic_id st)
          end
      | None =>
          match json_decode_error e with
          | Some msg =>
              Returned (tools st) rest
                (trace ++ attempt topic_id st
                 ++ [ Log ERROR (decode_message msg) ])
          | None => Raised e (trace ++ attempt topic_id st)
          end
      end
  end.
Proof.
  cbn [fetch_loop]. unfold attempt.
  destruct (try_body st r) as [[[|] st']|e]; try reflexivity.
  destruct (request_exception e) as [response|].
  - destruct (server_error response); [ | reflexivity].
    rewrite <- app_assoc. reflexivity.
  - destruct (json_decode_error e); [ | reflexivity].
    rewrite <- app_assoc. reflexivity.
Qed.

(** a request failure: the first handler *)
Lemma fetch_loop_failed (topic_id : string) (response : option Z)
  (rest : list reply) (st : locals) (trace : list event) :
  fetch_loop topic_id (RequestFailed response :: rest) st trace =
  match server_error response with
  | Some status_code =>
      fetch_loop topic_id rest st
        (trace ++ attempt topic_id st
         ++ [ Log WARNING (retry_message status_code); Sleep 5 ])
  | None => fetch_loop topic_id rest st (trace ++ attempt topic_id st)
  end.
Proof. rewrite fetch_loop_step. reflexivity. Qed.

(** a body that does not parse: the exception of [response.json()] is a
    [requests.RequestException] without response, so the first handler
    takes it and the loop goes round *)
Lemma fetch_loop_invalid (topic_id msg : string) (rest : list reply)
  (st : locals) (trace : list event) :
  fetch_loop topic_id (InvalidJSON msg :: rest) st trace =
  fetch_loop topic_id rest st (trace ++ attempt topic_id st).
Proof. rewrite fetch_loop_step. reflexivity. Qed.

(** a script that leaves the loop running can be continued *)
Lemma fetch_loop_app (topic_id : string) (s1 s2 : list reply) :
  forall (st : locals) (trace : list event) (st' : locals)
         (trace' : list event),
    fetch_loop topic_id s1 st trace = Pending st' trace' ->
    fetch_loop topic_id (s1 ++ s2) st trace = fetch_loop topic_id s2 st' trace'.
Proof.
  induction s1 as [|r s1 IH]; intros st trace st' trace'.
  - simpl. intros H. injection H as <- <-. reflexivity.
  - rewrite <- app_comm_cons, !fetch_loop_step.
    destruct (try_body st r) as [[[|] st1]|e]; try discriminate.
    + apply IH.
    + destruct (request_exception e) as [response|].
      * destruct (server_error response); apply IH.
      * destruct (json_decode_error e); discriminate.
Qed.

Lemma server_error_Some (response : option Z) (status_code : Z) :
  server_error response = Some status_code <->
  response = Some status_code /\ 500 <= status_code < 600.
Proof.
  unfold server_error. destruct response as [s|].
  - destruct (500 <=? s) eqn:H1; destruct (s <? 600) eqn:H2; simpl;
      split; intros H; try discriminate;
      try (injection H as ->; split; [reflexivity | lia]);
      destruct H as [H Hr]; injection H as ->; try reflexivity; lia.
  - split; [discriminate | intros [H _]; discriminate].
Qed.

Lemma server_error_None (response : option Z) :
  server_error response = None <->
  response = None \/
  exists status_code,
    response = Some status_code /\ (status_code < 500 \/ 600 <= status_code).
Proof.
  unfold server_error. destruct response as [s|].
  - destruct (500 <=? s) eqn:H1; destruct (s <? 600) eqn:H2; simpl; split;
      intros H; try discriminate; try reflexivity.
    + destruct H as [H | (s' & H & Hs)]; [discriminate | ].
      injection H as <-. lia.
    + right. exists s. split; [reflexivity | lia].
    + right. exists s. split; [reflexivity | lia].
    + right. exists s. split; [reflexivity | lia].
  - split; auto.
Qed.

Lemma fetch_loop_failures (topic_id : string) (failures : list (option Z)) :
  forall (st : locals) (trace : list event),
  exists trace',
    fetch_loop topic_id (map RequestFailed failures) st trace =
    Pending st trace' /\
    requests trace' =
    requests trace ++ repeat (page_url topic_id (page st)) (length failures) /\
    sleeps trace' = sleeps trace ++ pauses failures.
Proof.
  induction failures as [|response failures IH]; intros st trace.
  - exists trace. simpl. rewrite !app_nil_r. auto.
  - cbn [map]. rewrite fetch_loop_failed.
    destruct (server_error response) as [status_code|] eqn:Hse.
    + destruct (IH st (trace ++ attempt topic_id st
                       ++ [ Log WARNING (retry_message status_code); Sleep 5 ]))
        as (trace' & Hrun & Hreq & Hsl).
      exists trace'. split; [exact Hrun | ].
      rewrite Hreq, Hsl, !requests_app, !sleeps_app. cbn [pauses flat_map].
      rewrite Hse. simpl. rewrite <- !app_assoc. split; reflexivity.
    + destruct (IH st (trace ++ attempt topic_id st))
        as (trace' & Hrun & Hreq & Hsl).
      exists trace'. split; [exact Hrun | ].
      rewrite Hreq, Hsl, !requests_app, !sleeps_app. cbn [pauses flat_map].
      rewrite Hse. simpl. rewrite <- !app_assoc. split; reflexivity.
Qed.

(** C3: a request failure with a 5xx response logs a warning, pauses 5 and
    goes round the loop again with the same page, the same records and
    the rest of the script; any other request failure goes round at once;
    a run of request failures only ever asks for the same page again and
    leaves the fetch running: nothing is returned and nothing is raised. *)
Theorem request_failure_retries (topic_id : string) (st : locals)
  (trace : list event) :
  (forall (response : option Z) (status_code : Z) (rest : list reply),
     response = Some status_code -> 500 <= status_code < 600 ->
     fetch_loop topic_id (RequestFailed response :: rest) st trace =
     fetch_loop topic_id rest st
       (trace ++ attempt topic_id st
        ++ [ Log WARNING (retry_message status_code); Sleep 5 ]))
  /\ (forall (response : option Z) (rest : list reply),
        (response = None \/
         exists status_code,
           response = Some status_code /\
           (status_code < 500 \/ 600 <= status_code)) ->
        fetch_loop topic_id (RequestFailed response :: rest) st trace =
        fetch_loop topic_id rest st (trace ++ attempt topic_id st))
  /\ (forall failures : list (option Z),
        exists trace',
          fetch_loop topic_id (map RequestFailed failures) st trace =
          Pending st trace' /\
          requests trace' =
          requests trace
          ++ repeat (page_url topic_id (page st)) (length failures) /\
          sleeps trace' = sleeps trace ++ pauses failures).
Proof.
  split; [ | split].
  - intros response status_code rest Hr Hs.
    rewrite fetch_loop_failed.
    rewrite (proj2 (server_error_Some response status_code) (conj Hr Hs)).
    reflexivity.
  - intros response rest Hr.
    rewrite fetch_loop_failed.
    rewrite (proj2 (server_error_None response) Hr). reflexivity.
  - intros failures. apply fetch_loop_failures.
Qed.

Lemma request_failure_retries_witness :
  get_tools "0121" [ RequestFailed (Some 503); RequestFailed None;
                     RequestFailed (Some 404) ] =
  Pending {| tools := []; page := 1; max_pages := 0 |}
    [ Log INFO (page_message 1 0); Get (page_url "0121" 1) 20;
      Log WARNING (retry_message 503); Sleep 5;
      Log INFO (page_message 1 0); Get (page_url "0121" 1) 20;
      Log INFO (page_message 1 0); Get (page_url "0121" 1) 20 ].
Proof.
  unfold get_tools.
  destruct (request_failure_retries "0121"
              {| tools := []; page := 1; max_pages := 0 |} [])
    as (H5xx & _ & _).
  rewrite (H5xx (Some 503) 503 _ eq_refl) by lia.
  destruct (request_failure_retries "0121"
              {| tools := []; page := 1; max_pages := 0 |}
              ([] ++ attempt "0121" {| tools := []; page := 1; max_pages := 0 |}
               ++ [ Log WARNING (retry_message 503); Sleep 5 ]))
    as (_ & Hother & _).
  rewrite (Hother None _ (or_introl eq_refl)).
  reflexivity.
Defined.

(** C9: a page with an empty [list] and a [next] that is not empty makes
    the fetch raise [ZeroDivisionError], whatever was gathered before and
    whatever follows. *)
Theorem empty_page_division_by_zero (topic_id : string) (data : page_data)
  (count : Z) (next : string) (rest : list reply) (st : locals)
  (trace : list event) :
  pg_list data = Some [] -> pg_count data = Some count ->
  pg_next data = Some next -> next <> ""%string ->
  fetch_loop topic_id (Body data :: rest) st trace =
  Raised ZeroDivisionError (trace ++ attempt topic_id st).
Proof.
  intros Hl Hc Hn Hne. rewrite fetch_loop_step. cbn [try_body].
  rewrite Hl, Hc, Hn. simpl.
  destruct (String.eqb_spec next ""); [contradiction | reflexivity].
Qed.

Lemma empty_page_division_by_zero_witness :
  exists data : page_data,
    pg_list data = Some [] /\
    (exists next, pg_next data = Some next /\ next <> ""%string) /\
    get_tools "0622" [ Body data ] =
    Raised ZeroDivisionError
      [ Log INFO (page_message 1 0); Get (page_url "0622" 1) 20 ].
Proof.
  exists empty_page. split; [reflexivity | ]. split.
  - exists "?page=2"%string. split; [reflexivity | discriminate].
  - apply (empty_page_division_by_zero "0622" empty_page 0 "?page=2" []
             {| tools := []; page := 1; max_pages := 0 |} []);
      [reflexivity | reflexivity | reflexivity | discriminate].
Defined.

(** ** The float of the page count *)

Lemma round_half_even_le (a b : Z) : round_half_even a b <= a / b + 1.
Proof.
  unfold round_half_even.
  destruct (2 * (a mod b) <? b); [lia | ].
  destruct (b <? 2 * (a mod b)); [lia | ].
  destruct (Z.even (a / b)); lia.
Qed.

Lemma exponent_cases (a b : Z) :
  exponent a b = Z.log2 a - Z.log2 b \/
  exponent a b = Z.log2 a - Z.log2 b + 1.
Proof.
  unfold exponent.
  destruct (0 <=? Z.log2 a - Z.log2 b);
    [destruct (_ <=? a) | destruct (b <=? _)]; auto.
Qed.

Lemma exponent_upper (a b : Z) :
  0 < a -> 0 < b -> 0 <= Z.log2 a - Z.log2 b ->
  a < b * 2 ^ exponent a b.
Proof.
  intros Ha Hb Hd. unfold exponent.
  pose proof (Z.log2_spec a Ha) as [_ Ha2].
  pose proof (Z.log2_spec b Hb) as [Hb1 _].
  pose proof (Z.log2_nonneg b) as Hlb.
  set (d := Z.log2 a - Z.log2 b) in *.
  destruct (0 <=? d) eqn:H0; [ | apply Z.leb_gt in H0; lia].
  destruct (b * 2 ^ d <=? a) eqn:Hc.
  - apply Z.lt_le_trans with (2 ^ Z.succ (Z.log2 a)); [exact Ha2 | ].
    replace (Z.succ (Z.log2 a)) with (Z.log2 b + (d + 1)) by (unfold d; lia).
    rewrite Z.pow_add_r by lia.
    apply Z.mul_le_mono_nonneg_r; [apply Z.pow_nonneg; lia | exact Hb1].
  - apply Z.leb_gt in Hc. exact Hc.
Qed.

Lemma ceil_div_zero (count : Z) : ceil_div count 0 = Raise ZeroDivisionError.
Proof. reflexivity. Qed.

(** the values of [math.ceil(count / n)]: exact for small numbers, the
    ceiling of the rounded quotient above [2 ^ 53], [-0.0] for a small
    negative quotient, and the two exceptions *)
Example ceil_div_examples :
  ceil_div 10 3 = Ok 4 /\
  ceil_div 6 3 = Ok 2 /\
  ceil_div (-7) 2 = Ok (-3) /\
  ceil_div (-1) 3 = Ok 0 /\
  ceil_div (2 ^ 53 + 1) 1 = Ok (2 ^ 53) /\
  ceil_div (2 ^ 53 + 1) 3 = Ok 3002399751580331 /\
  ceil_div (2 ^ 1024 - 2 ^ 970 - 1) 1 = Ok (2 ^ 1024 - 2 ^ 971) /\
  ceil_div (2 ^ 1024 - 2 ^ 970) 1 = Raise OverflowError /\
  ceil_div (10 ^ 400) 3 = Raise OverflowError /\
  ceil_div (10 ^ 400) 0 = Raise ZeroDivisionError.
Proof. vm_compute. repeat split. Qed.

(** the division raises for a zero length, or for a large quotient *)
Lemma ceil_div_Raise (count : Z) (n : nat) (e : exn) :
  ceil_div count n = Raise e ->
  (e = ZeroDivisionError /\ n = 0%nat) \/ (e = OverflowError /\ n <> 0%nat).
Proof.
  unfold ceil_div. destruct (Nat.eqb_spec n 0) as [-> | Hn].
  - intros H. injection H as <-. auto.
  - destruct (count =? 0); [discriminate | ].
    destruct (nearest_float (Z.abs count) (Z.of_nat n)) as [m k].
    destruct ((0 <=? k) && (2 ^ 1024 <=? m * 2 ^ k)); [ | discriminate].
    intros H. injection H as <-. auto.
Qed.

(** below [2 ^ 1023] the quotient by a length is in the range of a float *)
Lemma ceil_div_in_range (count : Z) (n : nat) :
  n <> 0%nat -> Z.abs count < 2 ^ 1023 ->
  exists pages, ceil_div count n = Ok pages.
Proof.
  intros Hn Hc. unfold ceil_div.
  destruct (Nat.eqb_spec n 0) as [-> | _]; [contradiction | ].
  destruct (Z.eqb_spec count 0) as [-> | H0]; [eauto | ].
  unfold nearest_float.
  set (a := Z.abs count) in *. set (b := Z.of_nat n).
  assert (0 < a) as Ha by (unfold a; lia).
  assert (0 < b) as Hb by (unfold b; lia).
  set (e := exponent a b).
  set (k := Z.max e (-1021) - 53).
  destruct (0 <=? k) eqn:Hk; [ | simpl; eauto].
  apply Z.leb_le in Hk.
  assert (k = e - 53 /\ 53 <= e) as [Hke He] by (unfold k in *; lia).
  assert (0 <= Z.log2 a - Z.log2 b) as Hd
    by (destruct (exponent_cases a b) as [H | H]; fold e in H; lia).
  assert (e <= 1023) as Hmax.
  { assert (Z.log2 a < 1023) as Hla
      by (apply Z.log2_lt_pow2; [exact Ha | exact Hc]).
    pose proof (Z.log2_nonneg b).
    destruct (exponent_cases a b) as [H1 | H1]; fold e in H1; lia. }
  pose proof (exponent_upper a b Ha Hb Hd) as Hup. fold e in Hup.
  set (m := round_half_even a (b * 2 ^ k)).
  assert (0 < 2 ^ k) as Hpk by (apply Z.pow_pos_nonneg; lia).
  assert (m <= 2 ^ 53) as Hm.
  { pose proof (round_half_even_le a (b * 2 ^ k)) as Hr. fold m in Hr.
    assert (a / (b * 2 ^ k) < 2 ^ 53); [ | lia].
    apply Z.div_lt_upper_bound; [lia | ].
    replace e with (k + 53) in Hup by lia.
    rewrite Z.pow_add_r in Hup by lia. lia. }
  assert (m * 2 ^ k < 2 ^ 1024) as Hval.
  { apply Z.le_lt_trans with (2 ^ 53 * 2 ^ k).
    - apply Z.mul_le_mono_nonneg_r; lia.
    - rewrite <- Z.pow_add_r by lia.
      apply Z.pow_lt_mono_r; lia. }
  destruct (2 ^ 1024 <=? m * 2 ^ k) eqn:Hov; [apply Z.leb_le in Hov; lia | ].
  simpl. eauto.
Qed.

(** ** Pagination *)

Lemma inner_page_fields (data : page_data) :
  inner_page data = true ->
  exists t l count next,
    pg_list data = Some (t :: l) /\ pg_count data = Some count /\
    pg_next data = Some next /\ String.eqb next "" = false.
Proof.
  unfold inner_page.
  destruct (pg_list data) as [[|t l]|]; try discriminate.
  destruct (pg_count data) as [count|]; try discriminate.
  destruct (pg_next data) as [next|]; try discriminate.
  intros H. apply negb_true_iff in H. exists t, l, count, next. auto.
Qed.

(** a page with records, a next page and a count in range takes the loop
    to the next page *)
Lemma try_body_inner_page (st : locals) (data : page_data) :
  inner_page data = true -> count_in_range data = true ->
  exists l pages,
    pg_list data = Some l /\
    try_body st (Body data) =
    Ok (Next, {| tools := tools st ++ l; page := page st + 1;
                 max_pages := pages |}).
Proof.
  intros Hdata Hrange.
  destruct (inner_page_fields data Hdata)
    as (t & l & count & next & Hl & Hc & Hn & Hne).
  unfold count_in_range in Hrange. rewrite Hc in Hrange.
  apply Z.ltb_lt in Hrange.
  destruct (ceil_div_in_range count (length (t :: l))) as (pages & Hpages);
    [discriminate | exact Hrange | ].
  exists (t :: l), pages. split; [exact Hl | ].
  cbn [try_body]. rewrite Hl, Hc, Hn, Hne. cbn [getitem bind].
  rewrite Hpages. reflexivity.
Qed.

Lemma fetch_loop_inner_pages (topic_id : string) (pages : list page_data) :
  forall (st : locals) (trace : list event),
    forallb inner_page pages = true ->
    forallb count_in_range pages = true ->
    exists st' trace',
      fetch_loop topic_id (map Body pages) st trace = Pending st' trace' /\
      tools st' = tools st ++ lists_of pages /\
      page st' = page st + Z.of_nat (length pages) /\
      requests trace' =
      requests trace ++ page_urls topic_id (page st) (length pages) /\
      sleeps trace' = sleeps trace /\
      logged ERROR trace' = logged ERROR trace.
Proof.
  induction pages as [|data pages IH]; intros st trace Hall Hrange.
  - exists st, trace. simpl. rewrite !app_nil_r, Z.add_0_r. auto 10.
  - simpl in Hall, Hrange.
    apply andb_true_iff in Hall as [Hdata Hall].
    apply andb_true_iff in Hrange as [Hcount Hrange].
    destruct (try_body_inner_page st data Hdata Hcount)
      as (l & mp & Hl & Htry).
    cbn [map]. rewrite fetch_loop_step, Htry.
    destruct (IH {| tools := tools st ++ l; page := page st + 1;
                    max_pages := mp |} (trace ++ attempt topic_id st)
                Hall Hrange)
      as (st' & trace' & Hrun & Ht & Hp & Hr & Hs & He).
    exists st', trace'. split; [exact Hrun | ].
    cbn [tools page] in Ht, Hp, Hr.
    unfold lists_of. cbn [flat_map]. fold (lists_of pages).
    rewrite Hl. cbn [get_default length].
    rewrite requests_app, sleeps_app, logged_app in *.
    split; [rewrite Ht, <- app_assoc; reflexivity | ].
    split; [rewrite Hp; lia | ].
    split; [rewrite Hr, <- app_assoc; reflexivity | ].
    split; [rewrite Hs; apply app_nil_r | rewrite He; apply app_nil_r].
Qed.

Lemma page_urls_snoc (topic_id : string) (n : nat) :
  forall first : Z,
    page_urls topic_id first n ++ [page_url topic_id (first + Z.of_nat n)] =
    page_urls topic_id first (n + 1).
Proof.
  induction n as [|n IH]; intros first.
  - simpl. rewrite Z.add_0_r. reflexivity.
  - cbn [Nat.add page_urls app]. f_equal.
    rewrite <- IH. do 3 f_equal. lia.
Qed.

(** for pages that each hold records and a count in range, the fetch asks
    for one page after the other, from page 1, and returns their records
    in order *)
Lemma get_tools_pagination (topic_id : string) (pages : list page_data)
  (last : page_data) (rest : list reply) :
  forallb inner_page pages = true ->
  forallb count_in_range pages = true ->
  final_page last = true ->
  exists trace,
    get_tools topic_id (map Body (pages ++ [last]) ++ rest) =
    Returned (lists_of (pages ++ [last])) rest trace /\
    requests trace = page_urls topic_id 1 (length pages + 1) /\
    sleeps trace = [] /\ logged ERROR trace = [].
Proof.
  intros Hpages Hrange Hlast. unfold get_tools.
  destruct (fetch_loop_inner_pages topic_id pages
              {| tools := []; page := 1; max_pages := 0 |} [] Hpages Hrange)
    as (st' & trace' & Hrun & Ht & Hp & Hr & Hs & He).
  rewrite map_app, <- app_assoc.
  rewrite (fetch_loop_app _ _ _ _ _ _ _ Hrun). cbn [map app].
  rewrite fetch_loop_step.
  assert (exists l, pg_list last = Some l /\
                    try_body st' (Body last) =
                    Ok (Break, {| tools := tools st' ++ l; page := page st';
                                  max_pages := max_pages st' |}))
    as (l & Hl & Htry).
  { unfold final_page in Hlast. cbn [try_body].
    destruct (pg_list last) as [l|]; [ | discriminate].
    exists l. split; [reflexivity | ].
    destruct (pg_next last) as [next|]; simpl; [rewrite Hlast | ];
      reflexivity. }
  rewrite Htry. cbn [tools]. eexists. split.
  - f_equal. rewrite Ht. unfold lists_of. rewrite flat_map_app. simpl.
    rewrite Hl, app_nil_r. reflexivity.
  - rewrite requests_app, sleeps_app, logged_app, requests_attempt.
    rewrite Hr, Hs, He, Hp. simpl.
    repeat split. apply page_urls_snoc.
Qed.

(** ** A body that does not parse *)

(** the exceptions of the [try] body that the first handler does not take
    are not for the second either *)
Lemma try_body_unhandled (st : locals) (r : reply) (e : exn) :
  try_body st r = Raise e -> request_exception e = None ->
  json_decode_error e = None /\
  (e = KeyError "list" \/ e = KeyError "count" \/ e = ZeroDivisionError \/
   e = OverflowError).
Proof.
  destruct r as [response|msg|data]; cbn [try_body].
  - intros H. injection H as <-. discriminate.
  - intros H. injection H as <-. discriminate.
  - destruct (pg_list data) as [l|]; cbn [getitem bind];
      [ | intros H; injection H as <-; auto].
    destruct (match pg_next data with
              | Some s => String.eqb s ""
              | None => true
              end); [discriminate | ].
    destruct (pg_count data) as [count|]; cbn [getitem bind];
      [ | intros H; injection H as <-; auto].
    destruct (ceil_div count (length l)) as [pages|e'] eqn:Hdiv;
      cbn [bind]; [discriminate | ].
    intros H. injection H as <-.
    destruct (ceil_div_Raise _ _ _ Hdiv) as [[-> _] | [-> _]]; auto 10.
Qed.

Lemma fetch_loop_no_error (topic_id : string) (script : list reply) :
  forall (st : locals) (trace : list event),
    logged ERROR (trace_of (fetch_loop topic_id script st trace)) =
    logged ERROR trace.
Proof.
  induction script as [|r script IH]; intros st trace; [reflexivity | ].
  rewrite fetch_loop_step.
  assert (logged ERROR (trace ++ attempt topic_id st) = logged ERROR trace)
    as Hsame by (rewrite logged_app; apply app_nil_r).
  destruct (try_body st r) as [[[|] st']|e] eqn:Htry.
  - exact Hsame.
  - rewrite IH. exact Hsame.
  - destruct (request_exception e) as [response|] eqn:Hreq.
    + destruct (server_error response); rewrite IH; [ | exact Hsame].
      rewrite !logged_app. simpl. rewrite !app_nil_r. reflexivity.
    + destruct (try_body_unhandled st r e Htry Hreq) as [-> _]. exact Hsame.
Qed.

Lemma fetch_loop_invalid_run (topic_id : string) (msgs : list string) :
  forall (st : locals) (trace : list event),
  exists trace',
    fetch_loop topic_id (map InvalidJSON msgs) st trace = Pending st trace' /\
    requests trace' =
    requests trace ++ repeat (page_url topic_id (page st)) (length msgs) /\
    sleeps trace' = sleeps trace.
Proof.
  induction msgs as [|msg msgs IH]; intros st trace.
  - exists trace. simpl. rewrite app_nil_r. auto.
  - cbn [map]. rewrite fetch_loop_invalid.
    destruct (IH st (trace ++ attempt topic_id st))
      as (trace' & Hrun & Hreq & Hsl).
    exists trace'. split; [exact Hrun | ].
    rewrite Hreq, Hsl, requests_app, sleeps_app, <- app_assoc. simpl.
    rewrite app_nil_r. auto.
Qed.

(** C2: the exception that a body that does not parse raises is a
    [requests.RequestException] without response, and the first handler
    takes it: the loop goes round with the same page, the same records and
    the rest of the script, and logs nothing; a run of such replies only
    ever asks for the same page again and leaves the fetch running; the
    handler that logs an error and ends the fetch is never entered,
    whatever the replies. *)
Theorem invalid_json_is_retried (topic_id : string) (st : locals)
  (trace : list event) :
  (forall (msg : string) (rest : list reply),
     request_exception (RequestsJSONDecodeError msg) = Some None /\
     json_decode_error (RequestsJSONDecodeError msg) = Some msg /\
     try_body st (InvalidJSON msg) = Raise (RequestsJSONDecodeError msg) /\
     fetch_loop topic_id (InvalidJSON msg :: rest) st trace =
     fetch_loop topic_id rest st (trace ++ attempt topic_id st))
  /\ (forall msgs : list string,
        exists trace',
          fetch_loop topic_id (map InvalidJSON msgs) st trace =
          Pending st trace' /\
          requests trace' =
          requests trace
          ++ repeat (page_url topic_id (page st)) (length msgs) /\
          sleeps trace' = sleeps trace)
  /\ (forall script : list reply,
        logged ERROR (trace_of (fetch_loop topic_id script st trace)) =
        logged ERROR trace).
Proof.
  split; [ | split].
  - intros msg rest. repeat split; apply fetch_loop_invalid.
  - intros msgs. apply fetch_loop_invalid_run.
  - intros script. apply fetch_loop_no_error.
Qed.

(** C4: with a first page whose [list] is empty and whose [next] is not,
    and a second page that ends the sequence, the fetch asks for page 1
    only and raises [ZeroDivisionError]: it does not ask for page 2 and
    returns no records. *)
Theorem pagination_stops_at_empty_page :
  get_tools "0121" [ Body empty_page; Body (last_page [first_copy]) ] =
  Raised ZeroDivisionError
    [ Log INFO (page_message 1 0); Get (page_url "0121" 1) 20 ].
Proof. reflexivity. Qed.

(** ** Deduplication *)

Lemma dict_get_set (k k' : string) (v : tool) (d : dict) :
  dict_get k' (dict_set k v d) =
  if String.eqb k k' then Some v else dict_get k' d.
Proof.
  induction d as [|[k0 v0] d IH]; simpl.
  - reflexivity.
  - destruct (String.eqb_spec k0 k) as [-> | Hne]; simpl.
    + destruct (String.eqb k k'); reflexivity.
    + rewrite IH. destruct (String.eqb_spec k0 k') as [-> | Hne'].
      * destruct (String.eqb_spec k k'); [congruence | reflexivity].
      * reflexivity.
Qed.

Lemma dict_set_keys (k : string) (v : tool) (d : dict) :
  map fst (dict_set k v d) =
  if bool_decide (k ∈ map fst d) then map fst d else map fst d ++ [k].
Proof.
  induction d as [|[k0 v0] d IH]; simpl; [reflexivity | ].
  destruct (String.eqb_spec k0 k) as [-> | Hne]; simpl.
  - rewrite bool_decide_eq_true_2 by apply list_elem_of_here. reflexivity.
  - rewrite IH. destruct (bool_decide (k ∈ map fst d)) eqn:Hk.
    + apply bool_decide_eq_true in Hk.
      rewrite bool_decide_eq_true_2 by (apply list_elem_of_further, Hk).
      reflexivity.
    + apply bool_decide_eq_false in Hk.
      rewrite bool_decide_eq_false_2; [reflexivity | ].
      intros H. apply list_elem_of_In in H. destruct H as [H | H];
        [congruence | ]. apply Hk, list_elem_of_In, H.
Qed.

Lemma dict_set_NoDup (k : string) (v : tool) (d : dict) :
  NoDup (map fst d) -> NoDup (map fst (dict_set k v d)).
Proof.
  intros H. rewrite dict_set_keys.
  destruct (bool_decide (k ∈ map fst d)) eqn:Hk; [exact H | ].
  apply bool_decide_eq_false in Hk.
  apply NoDup_app. split; [exact H | ]. split.
  - intros x Hx Hxk. apply list_elem_of_singleton in Hxk. congruence.
  - apply NoDup_singleton.
Qed.

Lemma dict_set_keyed (k : string) (v : tool) (d : dict) :
  biotoolsID v = Some k -> keyed d -> keyed (dict_set k v d).
Proof.
  intros Hv. unfold keyed. induction d as [|[k0 v0] d IH]; simpl; intros H.
  - constructor; [exact Hv | constructor].
  - inversion H as [|? ? H0 Hd]; subst.
    destruct (String.eqb_spec k0 k) as [-> | Hne].
    + constructor; [exact Hv | exact Hd].
    + constructor; [exact H0 | apply IH, Hd].
Qed.

Lemma dict_get_None (k : string) (d : dict) :
  dict_get k d = None <-> k ∉ map fst d.
Proof.
  induction d as [|[k0 v0] d IH]; simpl.
  - split; [intros _; apply not_elem_of_nil | reflexivity].
  - rewrite not_elem_of_cons.
    destruct (String.eqb_spec k0 k) as [-> | Hne].
    + split; [discriminate | intros [H _]; congruence].
    + rewrite IH. split; [intros H; split; [congruence | exact H] | tauto].
Qed.

(** in a dictionary keyed by identifier, the records with an identifier
    are the one stored under it, if any *)
Lemma with_id_values (k : string) (d : dict) :
  NoDup (map fst d) -> keyed d ->
  with_id k (values d) =
  match dict_get k d with
  | Some v => [v]
  | None => []
  end.
Proof.
  unfold keyed, with_id, values.
  induction d as [|[k0 v0] d IH]; simpl; intros Hnd Hk; [reflexivity | ].
  inversion Hnd as [|? ? Hnotin Hnd']; subst.
  inversion Hk as [|? ? H0 Hk']; subst. simpl in H0.
  specialize (IH Hnd' Hk').
  destruct (String.eqb_spec k0 k) as [-> | Hne].
  - rewrite bool_decide_eq_true_2 by exact H0.
    apply dict_get_None in Hnotin. rewrite Hnotin in IH. rewrite IH.
    reflexivity.
  - rewrite bool_decide_eq_false_2 by congruence. exact IH.
Qed.

Lemma last_with_app (k : string) (l1 l2 : list tool) (o : option tool) :
  last_with k (l1 ++ l2) o = last_with k l2 (last_with k l1 o).
Proof.
  revert o. induction l1 as [|t l1 IH]; intros o; simpl; [reflexivity | ].
  apply IH.
Qed.

Lemma last_with_absent (k : string) (l : list tool) (o : option tool) :
  Forall (fun t => biotoolsID t <> Some k) l -> last_with k l o = o.
Proof.
  intros H. revert o. induction H as [|t l Ht _ IH]; intros o; simpl.
  - reflexivity.
  - rewrite bool_decide_eq_false_2 by exact Ht. apply IH.
Qed.

Lemma dict_comprehension_spec (l : list tool) :
  forall d : dict,
    Forall (fun t => is_Some (biotoolsID t)) l ->
    NoDup (map fst d) -> keyed d ->
    exists d',
      dict_comprehension l d = Ok d' /\
      NoDup (map fst d') /\ keyed d' /\
      forall k, dict_get k d' = last_with k l (dict_get k d).
Proof.
  induction l as [|t l IH]; intros d Hl Hnd Hk.
  - exists d. simpl. auto.
  - inversion Hl as [|? ? [k0 Ht] Hl']; subst. simpl. rewrite Ht. simpl.
    destruct (IH (dict_set k0 t d) Hl' (dict_set_NoDup _ _ _ Hnd)
                (dict_set_keyed _ _ _ Ht Hk))
      as (d' & Hrun & Hnd' & Hk' & Hget).
    exists d'. split; [exact Hrun | ]. split; [exact Hnd' | ].
    split; [exact Hk' | ].
    intros k. rewrite Hget, dict_get_set. f_equal.
    destruct (String.eqb_spec k0 k) as [-> | Hne].
    + rewrite bool_decide_eq_true_2 by reflexivity. reflexivity.
    + rewrite bool_decide_eq_false_2 by congruence. reflexivity.
Qed.

Lemma keyed_ids (d : dict) :
  keyed d -> map biotoolsID (values d) = map Some (map fst d).
Proof.
  unfold keyed, values. induction 1 as [|[k v] d Hkv _ IH]; simpl.
  - reflexivity.
  - simpl in Hkv. rewrite Hkv, IH. reflexivity.
Qed.

(** the deduplication step on records that all have an identifier: one
    record per identifier, the last one that carries it *)
Lemma unique_tools_spec (l : list tool) :
  Forall (fun t => is_Some (biotoolsID t)) l ->
  exists out,
    unique_tools l = Ok out /\
    (exists keys, NoDup keys /\ map biotoolsID out = map Some keys) /\
    forall k, with_id k out =
              match last_with k l None with
              | Some v => [v]
              | None => []
              end.
Proof.
  intros Hl.
  destruct (dict_comprehension_spec l [] Hl) as (d & Hrun & Hnd & Hk & Hget).
  { constructor. }
  { constructor. }
  exists (values d). unfold unique_tools. rewrite Hrun. simpl.
  split; [reflexivity | ]. split.
  - exists (map fst d). split; [exact Hnd | apply keyed_ids, Hk].
  - intros k. rewrite (with_id_values k d Hnd Hk), Hget. reflexivity.
Qed.

(** a record without identifier stops the deduplication step *)
Lemma unique_tools_missing_id (l : list tool) (t : tool) :
  In t l -> biotoolsID t = None ->
  unique_tools l = Raise (KeyError "biotoolsID").
Proof.
  intros Hin Ht. unfold unique_tools.
  assert (forall d, dict_comprehension l d = Raise (KeyError "biotoolsID"))
    as H.
  { induction l as [|t0 l IH]; simpl in *; [contradiction | ]. intros d.
    destruct Hin as [-> | Hin].
    - rewrite Ht. reflexivity.
    - destruct (biotoolsID t0); simpl; [apply IH, Hin | reflexivity]. }
  rewrite H. reflexivity.
Qed.

(** C5: when the records all have an identifier and two of them, [a]
    before [b], have the same one, with no later record carrying it, the
    deduplication step returns a list in which exactly one record has
    that identifier, and it is [b]. *)
Theorem dedup_keeps_last (l1 l2 l3 : list tool) (a b : tool) (k : string) :
  biotoolsID a = Some k -> biotoolsID b = Some k -> a <> b ->
  Forall (fun t => is_Some (biotoolsID t)) (l1 ++ l2 ++ l3) ->
  Forall (fun t => biotoolsID t <> Some k) l3 ->
  exists out,
    unique_tools (l1 ++ a :: l2 ++ b :: l3) = Ok out /\
    with_id k out = [b].
Proof.
  intros Ha Hb _ Hall Hl3.
  apply List.Forall_app in Hall as [Hall1 Hall23].
  apply List.Forall_app in Hall23 as [Hall2 Hall3].
  destruct (unique_tools_spec (l1 ++ a :: l2 ++ b :: l3)) as (out & Hrun & _ & H).
  { apply List.Forall_app. split; [exact Hall1 | ].
    constructor; [rewrite Ha; eauto | ].
    apply List.Forall_app. split; [exact Hall2 | ].
    constructor; [rewrite Hb; eauto | exact Hall3]. }
  exists out. split; [exact Hrun | ].
  rewrite H.
  replace (l1 ++ a :: l2 ++ b :: l3) with ((l1 ++ a :: l2) ++ [b] ++ l3)
    by (rewrite <- app_assoc; reflexivity).
  rewrite !last_with_app. rewrite (last_with_absent k l3) by exact Hl3.
  simpl. rewrite bool_decide_eq_true_2 by exact Hb. reflexivity.
Qed.

Lemma dedup_keeps_last_witness :
  exists out,
    unique_tools ([other_tool] ++ first_copy :: [] ++ second_copy :: []) =
    Ok out /\
    with_id "msfragger" out = [second_copy].
Proof.
  apply (dedup_keeps_last [other_tool] [] [] first_copy second_copy "msfragger").
  - reflexivity.
  - reflexivity.
  - discriminate.
  - repeat constructor. simpl. eauto.
  - constructor.
Defined.

(** A list on which the statement of C5 without the condition on
    identifiers fails: two records have the identifier "msfragger" and a
    third has none; the step raises [KeyError] and gives no output. *)
Lemma dedup_keeps_last_counterexample :
  biotoolsID first_copy = Some "msfragger"%string /\
  biotoolsID second_copy = Some "msfragger"%string /\
  first_copy <> second_copy /\
  unique_tools [first_copy; second_copy; no_id_tool] =
  Raise (KeyError "biotoolsID") /\
  ~ (exists out,
       unique_tools [first_copy; second_copy; no_id_tool] = Ok out /\
       with_id "msfragger" out = [second_copy]).
Proof.
  split; [reflexivity | ]. split; [reflexivity | ].
  split; [discriminate | ]. split; [reflexivity | ].
  intros (out & H & _). discriminate H.
Qed.

(** ** The driver *)

Lemma unique_tools_Ok_ids (l out : list tool) :
  unique_tools l = Ok out -> Forall (fun t => is_Some (biotoolsID t)) l.
Proof.
  intros H. apply List.Forall_forall. intros t Hin.
  destruct (biotoolsID t) as [k|] eqn:Ht; [eauto | ].
  rewrite (unique_tools_missing_id l t Hin Ht) in H. discriminate.
Qed.

Lemma rows_ids (l : list tool) (df : list row) :
  tools_to_df l = Ok df ->
  map r_id df = map (fun t => get_default (biotoolsID t) ""%string) l.
Proof.
  rewrite tools_to_df_rows, comprehension_Ok.
  induction 1 as [|t r l df Hrow _ IH]; simpl; [reflexivity | ].
  rewrite IH. destruct (row_of_id_name t r Hrow) as [-> _]. reflexivity.
Qed.

(** after the deduplication step the table has one row per identifier *)
Lemma deduplicated_ids_unique (l out : list tool) (df : list row) :
  unique_tools l = Ok out -> tools_to_df out = Ok df -> NoDup (map r_id df).
Proof.
  intros Hu Hdf. rewrite (rows_ids out df Hdf).
  destruct (unique_tools_spec l (unique_tools_Ok_ids l out Hu))
    as (out' & Hu' & (keys & Hnd & Hkeys) & _).
  assert (out' = out) as -> by congruence.
  replace (map (fun t => get_default (biotoolsID t) ""%string) out)
    with (map (fun o => get_default o ""%string) (map biotoolsID out))
    by (rewrite map_map; reflexivity).
  rewrite Hkeys, map_map. simpl. rewrite map_id. exact Hnd.
Qed.

(** a run that fetches from the network ends with a table that has one
    row per identifier *)
Lemma main_fetched_ids_unique (script : list reply) (fs : files)
  (df : list row) (trace : list event) :
  main no_files script = Exited fs df trace -> NoDup (map r_id df).
Proof.
  unfold main, no_files. cbn [DF_CACHE_FILE TOOL_CACHE_FILE].
  destruct (fetch_topics PROTEOMICS_EDAM_TOPICS _ _ _) as [l rest tr| |];
    try discriminate.
  destruct (fetch_topics GENOMIC_EDAM_TOPICS _ _ _) as [l' rest' tr'| |];
    try discriminate.
  destruct (unique_tools l') as [out|e] eqn:Hu; try discriminate.
  unfold convert. destruct (tools_to_df out) as [df'|e] eqn:Hdf;
    try discriminate.
  intros H. injection H as _ <- _.
  exact (deduplicated_ids_unique l' out df' Hu Hdf).
Qed.

(** C1: topic 3922 is fetched twice, with the proteomics and with the
    genomics topics.  When the registry answers "msfragger" both times, the
    run that fetches writes both records to the raw cache and a table with
    one row; a run that starts from that raw cache, without the table
    cache, ends with a table of two rows that both have the identifier
    "msfragger", whatever the network would answer. *)
Theorem raw_cache_rows_share_identifier :
  (exists (df : list row) (trace : list event),
     main no_files msfragger_script =
     Exited {| DF_CACHE_FILE := Some df;
               TOOL_CACHE_FILE := Some [first_copy; second_copy] |} df trace /\
     requests trace =
     map (fun topic_id => page_url topic_id 1)
       (PROTEOMICS_EDAM_TOPICS ++ GENOMIC_EDAM_TOPICS) /\
     map r_id df = ["msfragger"]%string)
  /\ (forall script : list reply,
        exists (df : list row) (trace : list event),
          main (raw_cache_only [first_copy; second_copy]) script =
          Exited {| DF_CACHE_FILE := Some df;
                    TOOL_CACHE_FILE := Some [first_copy; second_copy] |}
            df trace /\
          map r_id df = ["msfragger"; "msfragger"]%string /\
          ~ NoDup (map r_id df)).
Proof.
  split.
  - eexists. eexists.
    split; [vm_compute; reflexivity | split; reflexivity].
  - intros script. eexists. eexists.
    split; [reflexivity | ]. split; [reflexivity | ].
    simpl. intros H. inversion H as [|? ? Hnotin _]; subst.
    apply Hnotin. apply list_elem_of_here.
Qed.

(** * Further properties *)

(** ** The fetcher: what a call accounts for *)

Lemma bodies_app (s1 s2 : list reply) :
  bodies (s1 ++ s2) = bodies s1 ++ bodies s2.
Proof. apply flat_map_app. Qed.

Lemma failures_app (s1 s2 : list reply) :
  failures (s1 ++ s2) = failures s1 ++ failures s2.
Proof. apply flat_map_app. Qed.

Lemma lists_of_app (p1 p2 : list page_data) :
  lists_of (p1 ++ p2) = lists_of p1 ++ lists_of p2.
Proof. apply flat_map_app. Qed.

Lemma pauses_app (f1 f2 : list (option Z)) :
  pauses (f1 ++ f2) = pauses f1 ++ pauses f2.
Proof. apply flat_map_app. Qed.

Lemma timeouts_app (tr1 tr2 : list event) :
  timeouts (tr1 ++ tr2) = timeouts tr1 ++ timeouts tr2.
Proof. apply flat_map_app. Qed.

(** the ways the [try] body can end on a page *)
Lemma try_body_Body (st : locals) (data : page_data) :
  (pg_list data = None /\
   try_body st (Body data) = Raise (KeyError "list"))
  \/ (exists l,
        pg_list data = Some l /\
        ((final_page data = true /\
          try_body st (Body data) =
          Ok (Break, {| tools := tools st ++ l; page := page st;
                        max_pages := max_pages st |}))
         \/ (final_page data = false /\ pg_count data = None /\
             try_body st (Body data) = Raise (KeyError "count"))
         \/ (final_page data = false /\ l = [] /\ pg_count data <> None /\
             try_body st (Body data) = Raise ZeroDivisionError)
         \/ (inner_page data = true /\ count_in_range data = false /\
             try_body st (Body data) = Raise OverflowError)
         \/ (inner_page data = true /\
             exists pages,
               try_body st (Body data) =
               Ok (Next, {| tools := tools st ++ l; page := page st + 1;
                            max_pages := pages |})))).
Proof.
  unfold final_page, inner_page, count_in_range. cbn [try_body].
  destruct (pg_list data) as [l|]; [right; exists l; split; [reflexivity | ]
                                   | left; auto].
  destruct (pg_next data) as [next|]; cbn [getitem bind]; [ | left; auto].
  destruct (String.eqb next ""); cbn [negb]; [left; auto | right].
  destruct (pg_count data) as [count|]; cbn [getitem bind];
    [right | left; auto].
  destruct l as [|t l];
    [left; rewrite ceil_div_zero; repeat split; discriminate | right].
  destruct (ceil_div count (length (t :: l))) as [pages|e] eqn:Hdiv;
    cbn [bind].
  - right. split; [reflexivity | eauto].
  - left. destruct (ceil_div_Raise _ _ _ Hdiv) as [[_ Hn] | [-> _]];
      [discriminate Hn | ].
    split; [reflexivity | ]. split; [ | reflexivity].
    destruct (Z.abs count <? 2 ^ 1023) eqn:Hr; [ | reflexivity].
    apply Z.ltb_lt in Hr.
    destruct (ceil_div_in_range count (length (t :: l))) as (pages & Hp);
      [discriminate | exact Hr | congruence].
Qed.

Lemma try_body_Raise_any (st st' : locals) (r : reply) (e : exn) :
  try_body st r = Raise e -> try_body st' r = Raise e.
Proof.
  destruct r as [response|msg|data]; cbn [try_body]; try (intros H; exact H).
  destruct (pg_list data) as [l|]; simpl; [ | intros H; exact H].
  destruct (match pg_next data with
            | Some s => String.eqb s ""
            | None => true
            end); [discriminate | ].
  destruct (pg_count data) as [count|]; simpl; [ | intros H; exact H].
  destruct (ceil_div count (length l)); simpl; [discriminate | ].
  intros H; exact H.
Qed.

(** a reply that is no page and after which the loop goes round in the
    same state *)
Lemma accounted_retry (r : reply) (script : list reply) (st : locals)
  (trace tr1 : list event) (o : outcome) :
  bodies [r] = [] ->
  length (requests tr1) = S (length (requests trace)) ->
  sleeps tr1 = sleeps trace ++ pauses (failures [r]) ->
  accounted script st tr1 o -> accounted (r :: script) st trace o.
Proof.
  intros Hb Hreq Hsl.
  assert (forall s, bodies (r :: s) = bodies s) as Hbs.
  { intros s0. change (r :: s0) with ([r] ++ s0).
    rewrite bodies_app, Hb. reflexivity. }
  assert (forall s, sleeps trace ++ pauses (failures (r :: s)) =
                    sleeps tr1 ++ pauses (failures s)) as Hps.
  { intros s0. change (r :: s0) with ([r] ++ s0).
    rewrite failures_app, pauses_app, Hsl, app_assoc. reflexivity. }
  destruct o as [l rest tr'|e tr'|st' tr']; cbn [accounted].
  - intros (used & -> & Hl & Hr & Hs). exists (r :: used).
    rewrite (Hbs used), (Hps used), Hr, Hreq. cbn [length app].
    repeat split; try assumption. lia.
  - intros (used & data & rest & -> & He & Hr & Hs).
    exists (r :: used), data, rest.
    rewrite (Hps used), Hr, Hreq. cbn [length app].
    repeat split; try assumption. lia.
  - intros (Ht & Hp & Hr & Hs).
    rewrite (Hbs script), (Hps script), Hr, Hreq. cbn [length].
    repeat split; try assumption. lia.
Qed.

(** the general account of the loop, from any state *)
Lemma fetch_loop_account (topic_id : string) (script : list reply) :
  forall (st : locals) (trace : list event),
    accounted script st trace (fetch_loop topic_id script st trace).
Proof.
  induction script as [|r script IH]; intros st trace.
  - simpl. rewrite !app_nil_r, Z.add_0_r, Nat.add_0_r. auto.
  - destruct r as [response|msg|data].
    + (* a request failure: the same state, a longer trace *)
      rewrite fetch_loop_failed.
      destruct (server_error response) as [status_code|] eqn:Hse;
        (eapply accounted_retry; [reflexivity | | | apply IH]).
      * rewrite !requests_app, !length_app. simpl. lia.
      * rewrite !sleeps_app. simpl. rewrite Hse. reflexivity.
      * rewrite !requests_app, !length_app. simpl. lia.
      * rewrite !sleeps_app. simpl. rewrite Hse, !app_nil_r. reflexivity.
    + (* a body that does not parse: the same again, without a pause *)
      rewrite fetch_loop_invalid.
      eapply accounted_retry; [reflexivity | | | apply IH].
      * rewrite !requests_app, !length_app. simpl. lia.
      * rewrite !sleeps_app. simpl. rewrite !app_nil_r. reflexivity.
    + (* a page *)
      rewrite fetch_loop_step.
      destruct (try_body_Body st data)
        as [[Hl Htry] | (l & Hl & [[Hfin Htry] | [(Hfin & Hc & Htry)
            | [(Hfin & Hnil & Hc & Htry)
            | [(Hin & Hov & Htry) | (Hin & pages & Htry)]]]])];
        rewrite Htry.
      * exists [], data, script.
        rewrite requests_app, sleeps_app, length_app.
        simpl. rewrite !app_nil_r. repeat split; try lia.
        intros st0. exact (try_body_Raise_any st st0 _ _ Htry).
      * exists [Body data].
        rewrite requests_app, sleeps_app, length_app.
        unfold lists_of. simpl. rewrite Hl. simpl.
        rewrite !app_nil_r. repeat split; lia.
      * exists [], data, script.
        rewrite requests_app, sleeps_app, length_app.
        simpl. rewrite !app_nil_r. repeat split; try lia.
        intros st0. exact (try_body_Raise_any st st0 _ _ Htry).
      * exists [], data, script.
        rewrite requests_app, sleeps_app, length_app.
        simpl. rewrite !app_nil_r. repeat split; try lia.
        intros st0. exact (try_body_Raise_any st st0 _ _ Htry).
      * exists [], data, script.
        rewrite requests_app, sleeps_app, length_app.
        simpl. rewrite !app_nil_r. repeat split; try lia.
        intros st0. exact (try_body_Raise_any st st0 _ _ Htry).
      * match goal with
        | |- context [fetch_loop _ _ ?s ?tr] => specialize (IH s tr)
        end.
        destruct (fetch_loop topic_id script _ _) as [l' rest tr'|e tr'|st' tr'];
          cbn [accounted tools page] in IH |- *;
          rewrite requests_app, sleeps_app, length_app in IH;
          simpl in IH; rewrite ?app_nil_r in IH.
        -- destruct IH as (used & -> & Hl' & Hr & Hs).
           exists (Body data :: used). split; [reflexivity | ].
           split; [ | split; [simpl; lia | exact Hs]].
           rewrite Hl'. simpl. unfold lists_of at 2. simpl.
           fold (lists_of (bodies used)). rewrite Hl, <- app_assoc.
           reflexivity.
        -- destruct IH as (used & data' & rest & -> & He & Hr & Hs).
           exists (Body data :: used), data', rest.
           split; [reflexivity | ]. split; [exact He | ].
           split; [simpl; lia | exact Hs].
        -- destruct IH as (Ht & Hp & Hr & Hs).
           split; [ | split; [ | split; [simpl; lia | exact Hs]]].
           ++ rewrite Ht. simpl. unfold lists_of at 2. simpl.
              fold (lists_of (bodies script)). rewrite Hl, <- app_assoc.
              reflexivity.
           ++ rewrite Hp. simpl bodies. simpl length. lia.
Qed.

(** X1: when a call returns, the replies it consumed are a prefix of the
    script; the records returned are those of the pages among them, in
    order; one request was made for each reply consumed and one pause of 5
    was taken for each 5xx failure among them. *)
Theorem get_tools_returns_consumed_pages (topic_id : string)
  (script rest : list reply) (l : list tool) (trace : list event) :
  get_tools topic_id script = Returned l rest trace ->
  exists used,
    script = used ++ rest /\
    l = lists_of (bodies used) /\
    length (requests trace) = length used /\
    sleeps trace = pauses (failures used).
Proof.
  unfold get_tools. intros H.
  pose proof (fetch_loop_account topic_id script
                {| tools := []; page := 1; max_pages := 0 |} []) as Hacc.
  rewrite H in Hacc. exact Hacc.
Qed.

Lemma get_tools_returns_consumed_pages_witness :
  exists used,
    flaky_script = used ++ [ Body empty_page ] /\
    [first_copy; second_copy] = lists_of (bodies used) /\
    length (requests
              (trace_of (get_tools "0121" flaky_script))) = length used /\
    sleeps (trace_of (get_tools "0121" flaky_script)) =
    pauses (failures used).
Proof.
  apply (get_tools_returns_consumed_pages "0121" flaky_script
           [ Body empty_page ] [first_copy; second_copy]).
  reflexivity.
Defined.

(** X2: while a call is still running, its records are those of all the
    pages of the script, its page counter is 1 plus the number of pages,
    and it has made one request for each reply. *)
Theorem get_tools_pending_state (topic_id : string) (script : list reply)
  (st : locals) (trace : list event) :
  get_tools topic_id script = Pending st trace ->
  tools st = lists_of (bodies script) /\
  page st = 1 + Z.of_nat (length (bodies script)) /\
  length (requests trace) = length script /\
  sleeps trace = pauses (failures script).
Proof.
  unfold get_tools. intros H.
  pose proof (fetch_loop_account topic_id script
                {| tools := []; page := 1; max_pages := 0 |} []) as Hacc.
  rewrite H in Hacc. exact Hacc.
Qed.

Lemma get_tools_pending_state_witness :
  exists st trace,
    get_tools "0121" [ RequestFailed (Some 500); Body inner_sample;
                       RequestFailed (Some 429) ] = Pending st trace /\
    tools st = [first_copy] /\ page st = 2 /\
    length (requests trace) = 3%nat /\ sleeps trace = [5].
Proof.
  eexists. eexists. split; [reflexivity | ].
  apply (get_tools_pending_state "0121"
           [ RequestFailed (Some 500); Body inner_sample;
             RequestFailed (Some 429) ]).
  reflexivity.
Defined.

(** X3: a page without [list] makes the fetch raise [KeyError] for "list",
    and a page that has a [list] and announces a next page without giving
    [count] makes it raise [KeyError] for "count"; a page that ends the
    fetch needs no [count]. *)
Theorem page_missing_key (topic_id : string) (data : page_data)
  (rest : list reply) (st : locals) (trace : list event) :
  (pg_list data = None ->
   fetch_loop topic_id (Body data :: rest) st trace =
   Raised (KeyError "list") (trace ++ attempt topic_id st))
  /\ (forall l next,
        pg_list data = Some l -> pg_next data = Some next ->
        next <> ""%string -> pg_count data = None ->
        fetch_loop topic_id (Body data :: rest) st trace =
        Raised (KeyError "count") (trace ++ attempt topic_id st))
  /\ (forall l,
        pg_list data = Some l ->
        pg_next data = None \/ pg_next data = Some ""%string ->
        fetch_loop topic_id (Body data :: rest) st trace =
        Returned (tools st ++ l) rest (trace ++ attempt topic_id st)).
Proof.
  split; [ | split].
  - intros Hl. rewrite fetch_loop_step. cbn [try_body]. rewrite Hl.
    reflexivity.
  - intros l next Hl Hn Hne Hc. rewrite fetch_loop_step. cbn [try_body].
    rewrite Hl, Hn, Hc. simpl.
    destruct (String.eqb_spec next ""); [contradiction | reflexivity].
  - intros l Hl Hn. rewrite fetch_loop_step. cbn [try_body]. rewrite Hl.
    destruct Hn as [-> | ->]; reflexivity.
Qed.

Lemma page_missing_key_witness :
  get_tools "0121"
    [ Body {| pg_list := None; pg_count := Some 3; pg_next := None |} ] =
  Raised (KeyError "list") ([] ++ attempt "0121"
                              {| tools := []; page := 1; max_pages := 0 |})
  /\ get_tools "0121"
       [ Body {| pg_list := Some [first_copy]; pg_count := None;
                 pg_next := Some "?page=2" |} ] =
     Raised (KeyError "count") ([] ++ attempt "0121"
                                  {| tools := []; page := 1; max_pages := 0 |})
  /\ get_tools "0121"
       [ Body {| pg_list := Some [first_copy]; pg_count := None;
                 pg_next := Some "" |} ] =
     Returned ([] ++ [first_copy]) []
       ([] ++ attempt "0121" {| tools := []; page := 1; max_pages := 0 |}).
Proof.
  unfold get_tools. split; [ | split].
  - apply (proj1 (page_missing_key "0121"
                    {| pg_list := None; pg_count := Some 3; pg_next := None |}
                    [] {| tools := []; page := 1; max_pages := 0 |} [])).
    reflexivity.
  - apply (proj1 (proj2 (page_missing_key "0121"
                           {| pg_list := Some [first_copy]; pg_count := None;
                              pg_next := Some "?page=2" |}
                           [] {| tools := []; page := 1; max_pages := 0 |} []))
             [first_copy] "?page=2"); try reflexivity. discriminate.
  - apply (proj2 (proj2 (page_missing_key "0121"
                           {| pg_list := Some [first_copy]; pg_count := None;
                              pg_next := Some "" |}
                           [] {| tools := []; page := 1; max_pages := 0 |} []))
             [first_copy]).
    + reflexivity.
    + right. reflexivity.
Defined.



(** ** The fetcher: which pages are asked for *)

Lemma fetch_loop_paged (topic_id : string) (script : list reply) :
  forall (st : locals) (trace : list event),
  exists ps,
    requests (trace_of (fetch_loop topic_id script st trace)) =
    requests trace ++ map (page_url topic_id) ps /\
    paged (page st) ps /\
    timeouts (trace_of (fetch_loop topic_id script st trace)) =
    timeouts trace ++ repeat 20 (length ps).
Proof.
  induction script as [|r script IH]; intros st trace.
  - exists []. simpl. rewrite !app_nil_r. auto.
  - rewrite fetch_loop_step.
    assert (forall o,
              requests (trace_of o) = requests (trace ++ attempt topic_id st) ->
              timeouts (trace_of o) = timeouts (trace ++ attempt topic_id st) ->
              exists ps,
                requests (trace_of o) =
                requests trace ++ map (page_url topic_id) ps /\
                paged (page st) ps /\
                timeouts (trace_of o) = timeouts trace ++ repeat 20 (length ps))
      as Hstop.
    { intros o Hr Ht. exists [page st]. rewrite Hr, Ht.
      rewrite requests_app, timeouts_app. simpl. auto. }
    assert (forall st' tr1,
              page st' = page st \/ page st' = page st + 1 ->
              requests tr1 = requests (trace ++ attempt topic_id st) ->
              timeouts tr1 = timeouts (trace ++ attempt topic_id st) ->
              exists ps,
                requests (trace_of (fetch_loop topic_id script st' tr1)) =
                requests trace ++ map (page_url topic_id) ps /\
                paged (page st) ps /\
                timeouts (trace_of (fetch_loop topic_id script st' tr1)) =
                timeouts trace ++ repeat 20 (length ps))
      as Hgo.
    { intros st' tr1 Hp Hr Ht.
      destruct (IH st' tr1) as (ps & Hreq & Hpaged & Htime).
      exists (page st :: ps). rewrite Hreq, Htime, Hr, Ht.
      rewrite requests_app, timeouts_app, <- !app_assoc. simpl.
      repeat split.
      destruct Hp as [Hp | Hp]; rewrite Hp in Hpaged; auto. }
    destruct (try_body st r) as [[[|] st']|e] eqn:Htry.
    + apply Hstop; reflexivity.
    + apply Hgo; try reflexivity.
      destruct r as [response|msg|data]; cbn [try_body] in Htry;
        try discriminate.
      destruct (try_body_Body st data)
        as [[Hl Htry'] | (l & Hl & [[Hfin Htry'] | [(Hfin & Hc & Htry')
            | [(Hfin & Hnil & Hc & Htry')
            | [(Hin & Hov & Htry') | (Hin & pages & Htry')]]]])];
        cbn [try_body] in Htry'; rewrite Htry' in Htry; try discriminate.
      injection Htry as <-. right. reflexivity.
    + destruct (request_exception e) as [response|].
      * destruct (server_error response).
        -- apply Hgo; [left; reflexivity | | ].
           ++ rewrite !requests_app. simpl. rewrite ?app_nil_r. reflexivity.
           ++ rewrite !timeouts_app. simpl. rewrite ?app_nil_r. reflexivity.
        -- apply Hgo; [left; reflexivity | reflexivity | reflexivity].
      * destruct (json_decode_error e); [ | apply Hstop; reflexivity].
        apply Hstop.
        -- simpl. rewrite !requests_app. simpl. rewrite ?app_nil_r.
           reflexivity.
        -- simpl. rewrite !timeouts_app. simpl. rewrite ?app_nil_r.
           reflexivity.
Qed.

(** X5: whatever the replies, the requests of a fetch are for the pages
    of its topic, start with page 1 and go on with the same page or the
    next one; every request has the timeout 20. *)
Theorem get_tools_pages_in_order (topic_id : string) (script : list reply) :
  exists ps,
    requests (trace_of (get_tools topic_id script)) =
    map (page_url topic_id) ps /\
    paged 1 ps /\
    timeouts (trace_of (get_tools topic_id script)) = repeat 20 (length ps).
Proof.
  unfold get_tools.
  destruct (fetch_loop_paged topic_id script
              {| tools := []; page := 1; max_pages := 0 |} [])
    as (ps & Hr & Hp & Ht).
  exists ps. auto.
Qed.

(** ** The fetcher: request failures do not show in the result *)

Lemma fetch_loop_without_failures (topic_id : string) (script : list reply) :
  forall (st : locals) (tr1 tr2 : list event),
    verdict_of (fetch_loop topic_id (without_failures script) st tr1) =
    verdict_of (fetch_loop topic_id script st tr2).
Proof.
  induction script as [|r script IH]; intros st tr1 tr2.
  - reflexivity.
  - destruct r as [response|msg|data].
    + (* dropped on the left, retried on the right *)
      change (without_failures (RequestFailed response :: script))
        with (without_failures script).
      rewrite fetch_loop_failed.
      destruct (server_error response); apply IH.
    + change (without_failures (InvalidJSON msg :: script))
        with (InvalidJSON msg :: without_failures script).
      rewrite !fetch_loop_invalid. apply IH.
    + change (without_failures (Body data :: script))
        with (Body data :: without_failures script).
      rewrite !fetch_loop_step.
      destruct (try_body_Body st data)
        as [[Hl Htry] | (l & Hl & [[Hfin Htry] | [(Hfin & Hc & Htry)
            | [(Hfin & Hnil & Hc & Htry)
        | [(Hin & Hov & Htry) | (Hin & pages & Htry)]]]])];
        rewrite Htry; try reflexivity.
      apply IH.
Qed.

(** X6: taking the request failures out of a script does not change what
    a fetch comes to: the same records returned, the same exception, or
    the same state when the script runs out. *)
Theorem get_tools_ignores_failures (topic_id : string) (script : list reply) :
  verdict_of (get_tools topic_id (without_failures script)) =
  verdict_of (get_tools topic_id script).
Proof. apply fetch_loop_without_failures. Qed.

(** ** The transformer: which lists it accepts *)

Lemma comprehension_getitem_present {A B : Type} (key : string)
  (proj : A -> option B) (l : list A) (bs : list B) :
  comprehension (fun a => getitem key (proj a)) l = Ok bs ->
  forallb (fun a => bool_decide (is_Some (proj a))) l = true /\
  Forall2 (fun a b => proj a = Some b) l bs.
Proof.
  rewrite comprehension_Ok. induction 1 as [|a b l bs Ha _ [IH1 IH2]]; simpl.
  - split; [reflexivity | constructor].
  - apply getitem_Ok in Ha. split.
    + apply andb_true_iff. split; [ | exact IH1].
      apply bool_decide_eq_true. rewrite Ha. eauto.
    + constructor; assumption.
Qed.

Lemma repository_links_present (ls : list link_obj) (urls : list string) :
  repository_links ls = Ok urls ->
  forallb (fun l =>
             match l_type l with
             | Some ty =>
                 if contains "Repository" ty
                 then bool_decide (is_Some (l_url l)) else true
             | None => false
             end) ls = true.
Proof.
  revert urls. induction ls as [|l ls IH]; intros urls; simpl;
    [reflexivity | ].
  destruct (l_type l) as [ty|]; simpl; [ | discriminate].
  destruct (contains "Repository" ty).
  - destruct (l_url l) as [u|]; simpl; [ | discriminate].
    destruct (repository_links ls) as [urls'|]; simpl; [ | discriminate].
    intros _. apply (IH urls' eq_refl).
  - intros H. apply (IH urls H).
Qed.

Lemma row_of_well_formed (t : tool) (r : row) :
  row_of t = Ok r -> well_formed t = true.
Proof.
  unfold row_of, well_formed, topic_uris, documentation_urls, repository_urls.
  intros H.
  apply bind_Ok in H as (uris & Hu & H).
  apply bind_Ok in H as (docs & Hd & H).
  apply bind_Ok in H as (repos & Hr & _).
  apply bind_Ok in Hu as (ts & Hts & Hu). apply getitem_Ok in Hts.
  apply bind_Ok in Hu as (us & Hus & _).
  apply bind_Ok in Hd as (ds & Hds & Hd). apply getitem_Ok in Hds.
  apply bind_Ok in Hd as (durls & Hdurls & _).
  apply bind_Ok in Hr as (ls & Hls & Hr). apply getitem_Ok in Hls.
  apply bind_Ok in Hr as (urls & Hurls & _).
  rewrite Hts, Hds, Hls.
  rewrite (proj1 (comprehension_getitem_present _ _ _ _ Hus)).
  rewrite (proj1 (comprehension_getitem_present _ _ _ _ Hdurls)).
  rewrite (repository_links_present _ _ Hurls). reflexivity.
Qed.

Lemma topic_uris_keys (t : tool) (e : exn) :
  topic_uris t = Raise e -> e = KeyError "topic" \/ e = KeyError "uri".
Proof.
  unfold topic_uris. destruct (topic t) as [ts|]; simpl.
  - destruct (comprehension _ ts) eqn:Hc; simpl; [discriminate | ].
    intros H. injection H as <-.
    apply comprehension_getitem_KeyError in Hc. auto.
  - intros H. injection H as <-. auto.
Qed.

Lemma documentation_urls_keys (t : tool) (e : exn) :
  documentation_urls t = Raise e ->
  e = KeyError "documentation" \/ e = KeyError "url".
Proof.
  unfold documentation_urls. destruct (documentation t) as [ds|]; simpl.
  - destruct (comprehension _ ds) eqn:Hc; simpl; [discriminate | ].
    intros H. injection H as <-.
    apply comprehension_getitem_KeyError in Hc. auto.
  - intros H. injection H as <-. auto.
Qed.

Lemma repository_links_keys (links : list link_obj) (e : exn) :
  repository_links links = Raise e ->
  e = KeyError "type" \/ e = KeyError "url".
Proof.
  induction links as [|l links IH]; simpl; [discriminate | ].
  destruct (l_type l) as [ty|]; simpl; [ | intros H; injection H as <-; auto].
  destruct (contains "Repository" ty); [ | exact IH].
  destruct (l_url l); simpl; [ | intros H; injection H as <-; auto].
  destruct (repository_links links); simpl; [discriminate | ].
  intros H. apply IH. congruence.
Qed.

Lemma row_of_keys (t : tool) (e : exn) :
  row_of t = Raise e ->
  exists key,
    e = KeyError key /\
    In key [ "topic"; "uri"; "documentation"; "url"; "link"; "type" ]%string.
Proof.
  unfold row_of.
  destruct (topic_uris t) eqn:Ht; simpl.
  - destruct (documentation_urls t) eqn:Hd; simpl.
    + unfold repository_urls. destruct (link t) as [ls|]; simpl.
      * destruct (repository_links ls) eqn:Hr; simpl; [discriminate | ].
        intros H. injection H as <-.
        destruct (repository_links_keys _ _ Hr) as [-> | ->];
          eexists; (split; [reflexivity | simpl; auto 10]).
      * intros H. injection H as <-.
        eexists; (split; [reflexivity | simpl; auto 10]).
    + intros H. injection H as <-.
      destruct (documentation_urls_keys _ _ Hd) as [-> | ->];
        eexists; (split; [reflexivity | simpl; auto 10]).
  - intros H. injection H as <-.
    destruct (topic_uris_keys _ _ Ht) as [-> | ->];
      eexists; (split; [reflexivity | simpl; auto 10]).
Qed.

(** X7: the transformer returns a table exactly for the lists in which
    every record has [topic] with a [uri] on each entry, [documentation]
    with a [url] on each entry and [link] with a [type] on each entry and
    a [url] on each selected entry; for any other list it raises a
    [KeyError] for one of these six keys. *)
Theorem tools_to_df_accepts (l : list tool) :
  ((exists df, tools_to_df l = Ok df) <->
   Forall (fun t => well_formed t = true) l)
  /\ (forall e,
        tools_to_df l = Raise e ->
        exists key,
          e = KeyError key /\
          In key [ "topic"; "uri"; "documentation"; "url"; "link";
                   "type" ]%string).
Proof.
  split; [split | ].
  - intros (df & Hdf). rewrite tools_to_df_rows, comprehension_Ok in Hdf.
    induction Hdf as [|t r l df Hrow _ IH]; constructor; [ | exact IH].
    apply (row_of_well_formed t r Hrow).
  - apply tools_to_df_total.
  - intros e He. rewrite tools_to_df_rows in He.
    induction l as [|t l IH]; simpl in He; [discriminate | ].
    destruct (row_of t) as [r|e'] eqn:Hrow; simpl in He.
    + destruct (comprehension row_of l); simpl in He; [discriminate | ].
      apply IH. congruence.
    + injection He as <-. apply (row_of_keys t e' Hrow).
Qed.

Lemma tools_to_df_accepts_witness :
  Forall (fun t => well_formed t = true) [genomics_tool; proteogenomics_tool]
  /\ exists key,
       KeyError "link" = KeyError key /\
       In key [ "topic"; "uri"; "documentation"; "url"; "link";
                "type" ]%string.
Proof.
  split.
  - apply (proj1 (proj1 (tools_to_df_accepts
                           [genomics_tool; proteogenomics_tool]))).
    eexists. reflexivity.
  - apply (proj2 (tools_to_df_accepts [no_link_tool])). reflexivity.
Defined.

(** X8: the table of two lists, one after the other, is the table of the
    first followed by the table of the second; an exception of the first
    list comes before one of the second. *)
Theorem tools_to_df_app (l1 l2 : list tool) :
  tools_to_df (l1 ++ l2) =
  (df1 <- tools_to_df l1 ;;
   df2 <- tools_to_df l2 ;;
   Ok (df1 ++ df2)).
Proof. rewrite !tools_to_df_rows. apply comprehension_app. Qed.

Lemma rows_names (l : list tool) (df : list row) :
  tools_to_df l = Ok df ->
  map r_name df = map (fun t => get_default (name t) ""%string) l.
Proof.
  rewrite tools_to_df_rows, comprehension_Ok.
  induction 1 as [|t r l df Hrow _ IH]; simpl; [reflexivity | ].
  rewrite IH. destruct (row_of_id_name t r Hrow) as [_ ->]. reflexivity.
Qed.

(** X9: for a list of accepted records the table has one row per record,
    in the order of the list; the id and name columns are the records'
    [biotoolsID] and [name], with the empty string for an absent one. *)
Theorem tools_to_df_one_row_per_record (l : list tool) :
  Forall (fun t => well_formed t = true) l ->
  exists df,
    tools_to_df l = Ok df /\
    length df = length l /\
    map r_id df = map (fun t => get_default (biotoolsID t) ""%string) l /\
    map r_name df = map (fun t => get_default (name t) ""%string) l.
Proof.
  intros Hwf. destruct (tools_to_df_total l Hwf) as (df & Hdf).
  exists df. split; [exact Hdf | ]. split; [ | split].
  - apply (proj1 (tools_to_df_lookup l df Hdf)).
  - apply rows_ids, Hdf.
  - apply rows_names, Hdf.
Qed.

Lemma tools_to_df_one_row_per_record_witness :
  exists df,
    tools_to_df [no_id_tool; genomics_tool; anonymous_tool] = Ok df /\
    length df = 3%nat /\
    map r_id df = [""; "bwa"; ""]%string /\
    map r_name df = ["N"; "BWA"; ""]%string.
Proof.
  apply (tools_to_df_one_row_per_record
           [no_id_tool; genomics_tool; anonymous_tool]).
  repeat constructor.
Defined.

Lemma row_of_documentation (t : tool) (r : row) (ds : list doc_obj) :
  row_of t = Ok r -> documentation t = Some ds ->
  exists urls,
    Forall2 (fun d u => d_url d = Some u) ds urls /\
    r_documentation r = join "," urls.
Proof.
  unfold row_of, documentation_urls. intros H Hds. rewrite Hds in H.
  apply bind_Ok in H as (uris & _ & H).
  apply bind_Ok in H as (docs & Hd & H).
  apply bind_Ok in H as (repos & _ & H). injection H as <-.
  simpl in Hd. apply bind_Ok in Hd as (urls & Hurls & Hd).
  injection Hd as <-. exists urls. split; [ | reflexivity].
  apply (comprehension_getitem_present _ _ _ _ Hurls).
Qed.

(** X10: the documentation field of a record's row is the comma-join of
    the [url] of every entry of [documentation], in order; no entry is
    left out. *)
Theorem documentation_column (l : list tool) :
  Forall (fun t => well_formed t = true) l ->
  exists df,
    tools_to_df l = Ok df /\
    forall (i : nat) (t : tool) (ds : list doc_obj),
      l !! i = Some t -> documentation t = Some ds ->
      exists r urls,
        df !! i = Some r /\
        Forall2 (fun d u => d_url d = Some u) ds urls /\
        r_documentation r = join "," urls.
Proof.
  intros Hwf.
  destruct (tools_to_df_well_formed l Hwf) as (df & Hdf & _ & Hrows).
  exists df. split; [exact Hdf | ].
  intros i t ds Hi Hds. destruct (Hrows i t Hi) as (r & Hr & Hrow).
  destruct (row_of_documentation t r ds Hrow Hds) as (urls & Hurls & Hj).
  exists r, urls. auto.
Qed.

Lemma documentation_column_witness :
  exists df,
    tools_to_df [proteogenomics_tool] = Ok df /\
    exists r, df !! 0%nat = Some r /\
              r_documentation r =
              "https://pg.example/a,https://pg.example/b"%string.
Proof.
  destruct (documentation_column [proteogenomics_tool]) as (df & Hdf & H);
    [repeat constructor | ].
  exists df. split; [exact Hdf | ].
  destruct (H 0%nat proteogenomics_tool
              [ {| d_url := Some "https://pg.example/a" |};
                {| d_url := Some "https://pg.example/b" |} ]%string
              eq_refl eq_refl) as (r & urls & Hr & Hurls & Hj).
  exists r. split; [exact Hr | ]. rewrite Hj.
  inversion Hurls as [|d1 u1 ? us1 H1 Hurls1]; subst.
  inversion Hurls1 as [|d2 u2 ? us2 H2 Hurls2]; subst.
  inversion Hurls2; subst.
  simpl in H1, H2. injection H1 as <-. injection H2 as <-. reflexivity.
Defined.

(** ** The transformer: the three flags *)

Lemma has_uri_elem (t : tool) (uris : gset string) (u : string) :
  topic_uris t = Ok uris -> u ∈ uris <-> has_uri t u.
Proof. intros H. apply (topic_uris_elem t uris u H). Qed.

(** X11: the flags of a record's row say which topic entries it has:
    genomics for a URI of one of the fourteen genomics topics, proteomics
    for the URI of topic 0121 or of topic 3922, machine learning for the
    URI of topic 3474; a record with the URI of topic 3922 is both
    genomics and proteomics. *)
Theorem flags_by_topic (l : list tool) :
  Forall (fun t => well_formed t = true) l ->
  exists df,
    tools_to_df l = Ok df /\
    forall (i : nat) (t : tool),
      l !! i = Some t ->
      exists r,
        df !! i = Some r /\
        (r_is_genomics r = true <->
         exists x, In x GENOMIC_EDAM_TOPICS /\
                   has_uri t ("http://edamontology.org/topic_" ++ x)%string) /\
        (r_is_proteomics r = true <->
         has_uri t "http://edamontology.org/topic_0121" \/
         has_uri t "http://edamontology.org/topic_3922") /\
        (r_is_machine_learning r = true <->
         has_uri t "http://edamontology.org/topic_3474") /\
        (has_uri t "http://edamontology.org/topic_3922" ->
         r_is_genomics r = true /\ r_is_proteomics r = true).
Proof.
  intros Hwf.
  destruct (tools_to_df_well_formed l Hwf) as (df & Hdf & _ & Hrows).
  exists df. split; [exact Hdf | ].
  intros i t Hi. destruct (Hrows i t Hi) as (r & Hr & Hrow).
  destruct (row_of_flags t r Hrow) as (uris & Huris & Hg & Hp & Hm).
  exists r. split; [exact Hr | ].
  assert (r_is_genomics r = true <->
          exists x, In x GENOMIC_EDAM_TOPICS /\
                    has_uri t ("http://edamontology.org/topic_" ++ x)%string)
    as HG.
  { rewrite Hg, any_topic_true. split; intros (x & Hx & H); exists x;
      (split; [exact Hx | ]); apply (has_uri_elem t uris _ Huris); exact H. }
  assert (r_is_proteomics r = true <->
          has_uri t "http://edamontology.org/topic_0121" \/
          has_uri t "http://edamontology.org/topic_3922") as HP.
  { rewrite Hp, any_topic_true. split.
    - intros (x & Hx & H). apply (has_uri_elem t uris _ Huris) in H.
      simpl in Hx. destruct Hx as [<- | [<- | []]]; auto.
    - intros [H | H]; apply (has_uri_elem t uris _ Huris) in H.
      + exists "0121"%string. simpl. auto.
      + exists "3922"%string. simpl. auto. }
  split; [exact HG | ]. split; [exact HP | ]. split.
  - rewrite Hm, any_topic_true. split.
    + intros (x & Hx & H). apply (has_uri_elem t uris _ Huris) in H.
      simpl in Hx. destruct Hx as [<- | []]. exact H.
    + intros H. apply (has_uri_elem t uris _ Huris) in H.
      exists "3474"%string. simpl. auto.
  - intros H. split.
    + apply HG. exists "3922"%string. split; [simpl; auto 20 | exact H].
    + apply HP. auto.
Qed.

Lemma flags_by_topic_witness :
  exists df,
    tools_to_df [proteogenomics_tool] = Ok df /\
    exists r, df !! 0%nat = Some r /\
              r_is_genomics r = true /\ r_is_proteomics r = true.
Proof.
  destruct (flags_by_topic [proteogenomics_tool]) as (df & Hdf & H);
    [repeat constructor | ].
  exists df. split; [exact Hdf | ].
  destruct (H 0%nat proteogenomics_tool eq_refl)
    as (r & Hr & _ & _ & _ & Hboth).
  exists r. split; [exact Hr | ]. apply Hboth.
  eexists. eexists. split; [reflexivity | ].
  split; [left; reflexivity | reflexivity].
Defined.

(** ** The transformer: what it does not read *)

Lemma repository_links_hide (ls : list link_obj) :
  repository_links (map hide_unselected_url ls) = repository_links ls.
Proof.
  induction ls as [|lk ls IH]; simpl; [reflexivity | ].
  unfold hide_unselected_url at 1 2. unfold is_repository.
  destruct (l_type lk) as [ty|] eqn:Hty.
  - destruct (contains "Repository" ty) eqn:Hc.
    + rewrite Hty. simpl. rewrite Hc, IH. reflexivity.
    + simpl. rewrite Hc. exact IH.
  - simpl. reflexivity.
Qed.

Lemma row_of_hide (t : tool) : row_of (hide_unselected_urls t) = row_of t.
Proof.
  unfold row_of, topic_uris, documentation_urls, repository_urls,
    hide_unselected_urls. simpl.
  destruct (link t) as [ls|]; simpl; [ | reflexivity].
  rewrite repository_links_hide. reflexivity.
Qed.

(** X12: the [url] of a link whose type does not contain "Repository" is
    never read: taking it away from every such link changes neither the
    table nor the exception. *)
Theorem unselected_url_not_read (l : list tool) :
  tools_to_df (map hide_unselected_urls l) = tools_to_df l.
Proof.
  rewrite !tools_to_df_rows.
  induction l as [|t l IH]; simpl; [reflexivity | ].
  rewrite row_of_hide, IH. reflexivity.
Qed.

(** ** The deduplication step *)

Lemma dict_set_fresh (k : string) (v : tool) (d : dict) :
  k ∉ map fst d -> dict_set k v d = d ++ [(k, v)].
Proof.
  induction d as [|[k0 v0] d IH]; simpl; intros Hk; [reflexivity | ].
  apply not_elem_of_cons in Hk as [Hne Hk].
  destruct (String.eqb_spec k0 k) as [-> | _]; [contradiction | ].
  rewrite (IH Hk). reflexivity.
Qed.

Lemma dict_comprehension_fresh (l : list tool) :
  forall d : dict,
    Forall (fun t => is_Some (biotoolsID t)) l ->
    NoDup (map biotoolsID l) ->
    (forall t k, t ∈ l -> biotoolsID t = Some k -> k ∉ map fst d) ->
    dict_comprehension l d = Ok (d ++ entries l).
Proof.
  induction l as [|t l IH]; intros d Hall Hnd Hfresh; simpl.
  - rewrite app_nil_r. reflexivity.
  - inversion Hall as [|? ? [k Hk] Hall']; subst.
    inversion Hnd as [|? ? Hnotin Hnd']; subst.
    rewrite Hk. simpl.
    rewrite (dict_set_fresh k t d)
      by (apply (Hfresh t k); [apply list_elem_of_here | exact Hk]).
    rewrite (IH (d ++ [(k, t)]) Hall' Hnd'), <- app_assoc; [reflexivity | ].
    intros t' k' Hin Hk'. rewrite map_app. simpl.
    intros Hmem. apply elem_of_app in Hmem as [Hmem | Hmem].
    + apply (Hfresh t' k' (list_elem_of_further _ _ _ Hin) Hk'). exact Hmem.
    + apply list_elem_of_singleton in Hmem. subst k'.
      apply Hnotin. rewrite Hk, <- Hk'.
      apply list_elem_of_In, in_map, list_elem_of_In, Hin.
Qed.

Lemma values_entries (l : list tool) : values (entries l) = l.
Proof.
  unfold values, entries. rewrite map_map. simpl. apply map_id.
Qed.

Lemma unique_tools_fresh (l : list tool) :
  Forall (fun t => is_Some (biotoolsID t)) l ->
  NoDup (map biotoolsID l) ->
  unique_tools l = Ok l.
Proof.
  intros Hall Hnd. unfold unique_tools.
  rewrite (dict_comprehension_fresh l [] Hall Hnd).
  - simpl. rewrite values_entries. reflexivity.
  - intros t k _ _. apply not_elem_of_nil.
Qed.

Lemma ids_of_keys (out : list tool) (keys : list string) :
  map biotoolsID out = map Some keys -> NoDup keys ->
  Forall (fun t => is_Some (biotoolsID t)) out /\ NoDup (map biotoolsID out).
Proof.
  intros Hmap Hnd. split.
  - apply List.Forall_forall. intros t Hin.
    apply (in_map biotoolsID) in Hin. rewrite Hmap in Hin.
    apply in_map_iff in Hin as (k & <- & _). eauto.
  - rewrite Hmap. clear Hmap.
    induction Hnd as [|k keys Hnotin _ IH]; simpl; constructor; [ | exact IH].
    intros Hin. apply Hnotin.
    apply list_elem_of_In, in_map_iff in Hin as (k' & Hk' & Hin).
    injection Hk' as ->. apply list_elem_of_In, Hin.
Qed.

(** X13: a list of records that all have an identifier, no two the same,
    goes through the deduplication step unchanged, order included. *)
Theorem unique_tools_distinct (l : list tool) :
  Forall (fun t => is_Some (biotoolsID t)) l ->
  NoDup (map biotoolsID l) ->
  unique_tools l = Ok l.
Proof. apply unique_tools_fresh. Qed.

Lemma unique_tools_distinct_witness :
  unique_tools [other_tool; second_copy; genomics_tool] =
  Ok [other_tool; second_copy; genomics_tool].
Proof.
  apply unique_tools_distinct.
  - repeat constructor; simpl; eauto.
  - simpl. repeat constructor; simpl;
      rewrite ?not_elem_of_cons; repeat split;
      try discriminate; apply not_elem_of_nil.
Defined.

(** X14: the deduplication step is idempotent: its output goes through it
    unchanged. *)
Theorem unique_tools_idempotent (l : list tool) :
  Forall (fun t => is_Some (biotoolsID t)) l ->
  exists out, unique_tools l = Ok out /\ unique_tools out = Ok out.
Proof.
  intros Hall.
  destruct (unique_tools_spec l Hall) as (out & Hrun & (keys & Hnd & Hkeys) & _).
  exists out. split; [exact Hrun | ].
  destruct (ids_of_keys out keys Hkeys Hnd) as [Hall' Hnd'].
  apply unique_tools_fresh; assumption.
Qed.

Lemma unique_tools_idempotent_witness :
  exists out,
    unique_tools [first_copy; other_tool; second_copy] = Ok out /\
    unique_tools out = Ok out.
Proof.
  apply (unique_tools_idempotent [first_copy; other_tool; second_copy]).
  repeat constructor; simpl; eauto.
Defined.

Lemma last_with_origin (k : string) (l : list tool) :
  forall (o : option tool) (v : tool),
    last_with k l o = Some v ->
    o = Some v \/ (In v l /\ biotoolsID v = Some k).
Proof.
  induction l as [|t l IH]; intros o v; simpl; [auto | ].
  intros H. destruct (IH _ _ H) as [Ho | [Hin Hk]]; [ | auto].
  destruct (bool_decide (biotoolsID t = Some k)) eqn:Ht; [ | auto].
  apply bool_decide_eq_true in Ht. injection Ho as <-. auto.
Qed.

Lemma last_with_found (k : string) (l : list tool) (t : tool) :
  forall o : option tool,
    In t l -> biotoolsID t = Some k ->
    exists v, last_with k l o = Some v.
Proof.
  induction l as [|t0 l IH]; intros o; simpl; [intros [] | ].
  intros [-> | Hin] Hk.
  - rewrite bool_decide_eq_true_2 by exact Hk.
    destruct (last_with k l (Some t)) as [v|] eqn:Hv; [eauto | ].
    exfalso. clear IH. revert Hv. generalize t.
    induction l as [|t1 l IHl]; simpl; intros t' Hv; [discriminate | ].
    destruct (bool_decide (biotoolsID t1 = Some k)); apply (IHl _ Hv).
  - apply IH; assumption.
Qed.

(** X15: the deduplication step neither invents nor loses identifiers:
    every record of the output is a record of the input, every identifier
    of the input is the identifier of a record of the output, no two
    records of the output have the same identifier, and the output is no
    longer than the input. *)
Theorem unique_tools_sound_complete (l : list tool) :
  Forall (fun t => is_Some (biotoolsID t)) l ->
  exists out,
    unique_tools l = Ok out /\
    (forall t, In t out -> In t l) /\
    (forall t, In t l ->
               exists t', In t' out /\ biotoolsID t' = biotoolsID t) /\
    NoDup (map biotoolsID out) /\
    (length out <= length l)%nat.
Proof.
  intros Hall.
  destruct (unique_tools_spec l Hall)
    as (out & Hrun & (keys & Hnd & Hkeys) & Hwith).
  destruct (ids_of_keys out keys Hkeys Hnd) as [Hall' Hnd'].
  assert (forall t, In t out -> In t l) as Hsound.
  { intros t Hin.
    destruct (proj1 (List.Forall_forall _ _) Hall' t Hin) as [k Hk].
    assert (In t (with_id k out)) as Hmem.
    { unfold with_id. apply filter_In. split; [exact Hin | ].
      apply bool_decide_eq_true, Hk. }
    rewrite Hwith in Hmem.
    destruct (last_with k l None) as [v|] eqn:Hv; [ | contradiction].
    destruct Hmem as [<- | []].
    destruct (last_with_origin k l None v Hv) as [H | [H _]];
      [discriminate | exact H]. }
  exists out. split; [exact Hrun | ]. split; [exact Hsound | ].
  split; [ | split; [exact Hnd' | ]].
  - intros t Hin.
    destruct (proj1 (List.Forall_forall _ _) Hall t Hin) as [k Hk].
    destruct (last_with_found k l t None Hin Hk) as (v & Hv).
    specialize (Hwith k). rewrite Hv in Hwith.
    assert (In v (with_id k out)) as Hmem by (rewrite Hwith; left; reflexivity).
    unfold with_id in Hmem. apply filter_In in Hmem as [Hvin Hvk].
    apply bool_decide_eq_true in Hvk. exists v. split; [exact Hvin | ].
    congruence.
  - rewrite <- (length_map biotoolsID out), <- (length_map biotoolsID l).
    apply submseteq_length, NoDup_submseteq; [exact Hnd' | ].
    intros o Ho. apply list_elem_of_In, in_map_iff in Ho as (t & <- & Hin).
    apply list_elem_of_In, in_map, Hsound, Hin.
Qed.

Lemma unique_tools_sound_complete_witness :
  exists out,
    unique_tools [first_copy; other_tool; second_copy] = Ok out /\
    (forall t, In t out -> In t [first_copy; other_tool; second_copy]) /\
    (forall t, In t [first_copy; other_tool; second_copy] ->
               exists t', In t' out /\ biotoolsID t' = biotoolsID t) /\
    NoDup (map biotoolsID out) /\
    (length out <= 3)%nat.
Proof.
  apply (unique_tools_sound_complete [first_copy; other_tool; second_copy]).
  repeat constructor; simpl; eauto.
Defined.

(** X16: the deduplication step returns exactly when every record has a
    [biotoolsID]; otherwise it raises [KeyError] for "biotoolsID", whatever
    else the list holds. *)
Theorem unique_tools_needs_identifier (l : list tool) :
  ((exists out, unique_tools l = Ok out) <->
   Forall (fun t => is_Some (biotoolsID t)) l)
  /\ ((exists t, In t l /\ biotoolsID t = None) <->
      unique_tools l = Raise (KeyError "biotoolsID"))
  /\ (forall e, unique_tools l = Raise e -> e = KeyError "biotoolsID").
Proof.
  assert ((exists t, In t l /\ biotoolsID t = None) \/
          Forall (fun t => is_Some (biotoolsID t)) l) as Hcases.
  { induction l as [|t l [(t' & Hin & Ht') | IH]].
    - right. constructor.
    - left. exists t'. simpl. auto.
    - destruct (biotoolsID t) as [k|] eqn:Hk.
      + right. constructor; [rewrite Hk; eauto | exact IH].
      + left. exists t. simpl. auto. }
  split; [ | split].
  - split.
    + intros (out & Hout). apply (unique_tools_Ok_ids l out Hout).
    + intros Hall. destruct (unique_tools_spec l Hall) as (out & Hout & _).
      eauto.
  - split.
    + intros (t & Hin & Ht). apply (unique_tools_missing_id l t Hin Ht).
    + intros Hraise. destruct Hcases as [H | Hall]; [exact H | ].
      destruct (unique_tools_spec l Hall) as (out & Hout & _). congruence.
  - intros e He. destruct Hcases as [(t & Hin & Ht) | Hall].
    + rewrite (unique_tools_missing_id l t Hin Ht) in He. congruence.
    + destruct (unique_tools_spec l Hall) as (out & Hout & _). congruence.
Qed.

Lemma unique_tools_needs_identifier_witness :
  unique_tools [first_copy; no_id_tool; first_copy] =
  Raise (KeyError "biotoolsID")
  /\ exists out, unique_tools [first_copy; second_copy] = Ok out.
Proof.
  split.
  - apply (proj1 (proj1 (proj2 (unique_tools_needs_identifier
                                  [first_copy; no_id_tool; first_copy])))).
    exists no_id_tool. split; [simpl; auto | reflexivity].
  - apply (proj2 (proj1 (unique_tools_needs_identifier
                           [first_copy; second_copy]))).
    repeat constructor; simpl; eauto.
Defined.

Lemma dict_comprehension_app (l1 l2 : list tool) :
  forall d : dict,
    dict_comprehension (l1 ++ l2) d =
    (d1 <- dict_comprehension l1 d ;; dict_comprehension l2 d1).
Proof.
  induction l1 as [|t l1 IH]; intros d; simpl; [reflexivity | ].
  destruct (biotoolsID t) as [k|]; simpl; [apply IH | reflexivity].
Qed.

Lemma dict_comprehension_keys (l : list tool) :
  forall d d' : dict,
    dict_comprehension l d = Ok d' ->
    exists more, map fst d' = map fst d ++ more.
Proof.
  induction l as [|t l IH]; intros d d'; simpl.
  - intros H. injection H as <-. exists []. rewrite app_nil_r. reflexivity.
  - destruct (biotoolsID t) as [k|]; simpl; [ | discriminate].
    intros H. destruct (IH _ _ H) as (more & Hmore).
    rewrite Hmore, dict_set_keys.
    destruct (bool_decide (k ∈ map fst d)).
    + exists more. reflexivity.
    + exists (k :: more). rewrite <- app_assoc. reflexivity.
Qed.

(** X17: the place of an identifier in the output is fixed by its first
    occurrence: records added at the end of the input leave the
    identifiers of the output where they were and can only add new ones
    after them. *)
Theorem unique_tools_order_stable (l1 l2 : list tool) :
  Forall (fun t => is_Some (biotoolsID t)) (l1 ++ l2) ->
  exists out1 out12 more,
    unique_tools l1 = Ok out1 /\
    unique_tools (l1 ++ l2) = Ok out12 /\
    map biotoolsID out12 = map biotoolsID out1 ++ more.
Proof.
  intros Hall. apply List.Forall_app in Hall as [Hall1 Hall2].
  destruct (dict_comprehension_spec l1 [] Hall1) as (d1 & Hrun1 & Hnd1 & Hk1 & _);
    [constructor | constructor | ].
  destruct (dict_comprehension_spec l2 d1 Hall2 Hnd1 Hk1)
    as (d12 & Hrun2 & Hnd12 & Hk12 & _).
  destruct (dict_comprehension_keys l2 d1 d12 Hrun2) as (more & Hmore).
  exists (values d1), (values d12), (map Some more).
  unfold unique_tools. rewrite dict_comprehension_app, Hrun1. simpl.
  rewrite Hrun2. simpl. split; [reflexivity | ]. split; [reflexivity | ].
  rewrite (keyed_ids d12 Hk12), (keyed_ids d1 Hk1), Hmore, map_app.
  reflexivity.
Qed.

Lemma unique_tools_order_stable_witness :
  exists out1 out12 more,
    unique_tools [first_copy; other_tool] = Ok out1 /\
    unique_tools ([first_copy; other_tool] ++ [genomics_tool; second_copy]) =
    Ok out12 /\
    map biotoolsID out12 = map biotoolsID out1 ++ more.
Proof.
  apply (unique_tools_order_stable [first_copy; other_tool]
           [genomics_tool; second_copy]).
  repeat constructor; simpl; eauto.
Defined.

(** ** The driver *)

Lemma tools_to_df_raise_keys (l : list tool) (e : exn) :
  tools_to_df l = Raise e ->
  exists key,
    e = KeyError key /\
    In key [ "topic"; "uri"; "documentation"; "url"; "link"; "type" ]%string.
Proof.
  rewrite tools_to_df_rows.
  induction l as [|t l IH]; simpl; [discriminate | ].
  destruct (row_of t) as [r|e'] eqn:Hrow; simpl.
  - destruct (comprehension row_of l); simpl; [discriminate | ].
    intros H. apply IH. congruence.
  - intros H. injection H as <-. apply (row_of_keys t e' Hrow).
Qed.

Lemma unique_tools_raise_key (l : list tool) (e : exn) :
  unique_tools l = Raise e -> e = KeyError "biotoolsID".
Proof.
  unfold unique_tools.
  assert (forall d, dict_comprehension l d = Raise e ->
                    e = KeyError "biotoolsID") as H.
  { induction l as [|t l IH]; simpl; intros d; [discriminate | ].
    destruct (biotoolsID t); simpl; [apply IH | congruence]. }
  destruct (dict_comprehension l []) eqn:Hd; simpl; [discriminate | ].
  intros He. apply (H [] ). congruence.
Qed.


Lemma get_tools_account (topic_id : string) (script rest : list reply)
  (l : list tool) (trace : list event) :
  get_tools topic_id script = Returned l rest trace ->
  exists used, script = used ++ rest /\ l = lists_of (bodies used).
Proof.
  unfold get_tools. intros H.
  pose proof (fetch_loop_account topic_id script
                {| tools := []; page := 1; max_pages := 0 |} []) as Hacc.
  rewrite H in Hacc. destruct Hacc as (used & Hs & Hl & _). eauto.
Qed.

Lemma get_tools_raised_exn (topic_id : string) (script : list reply)
  (e : exn) (trace : list event) :
  get_tools topic_id script = Raised e trace ->
  e = KeyError "list" \/ e = KeyError "count" \/ e = ZeroDivisionError \/
  e = OverflowError.
Proof.
  unfold get_tools. intros H.
  pose proof (fetch_loop_account topic_id script
                {| tools := []; page := 1; max_pages := 0 |} []) as Hacc.
  rewrite H in Hacc. destruct Hacc as (used & data & rest & _ & He & _).
  specialize (He {| tools := []; page := 1; max_pages := 0 |}).
  destruct (try_body_Body {| tools := []; page := 1; max_pages := 0 |} data)
    as [[Hl Htry] | (l & Hl & [[Hfin Htry] | [(Hfin & Hc & Htry)
        | [(Hfin & Hnil & Hc & Htry)
        | [(Hin & Hov & Htry) | (Hin & pages & Htry)]]]])];
    rewrite Htry in He; try discriminate; injection He as <-; auto 10.
Qed.

Lemma fetch_topics_account (topics : list string) :
  forall (acc : list tool) (script : list reply) (trace : list event)
         (l : list tool) (rest : list reply) (trace' : list event),
    fetch_topics topics acc script trace = Returned l rest trace' ->
    exists used, script = used ++ rest /\ l = acc ++ lists_of (bodies used).
Proof.
  induction topics as [|topic_id topics IH];
    intros acc script trace l rest trace'; simpl.
  - intros H. injection H as <- <- _. exists []. simpl.
    rewrite app_nil_r. auto.
  - destruct (get_tools topic_id script) as [got rest1 tr1| |] eqn:Hget;
      try discriminate.
    intros H.
    destruct (get_tools_account _ _ _ _ _ Hget) as (used1 & -> & ->).
    destruct (IH _ _ _ _ _ _ H) as (used2 & -> & ->).
    exists (used1 ++ used2).
    rewrite bodies_app, lists_of_app, !app_assoc. auto.
Qed.

Lemma fetch_topics_raised (topics : list string) :
  forall (acc : list tool) (script : list reply) (trace : list event)
         (e : exn) (trace' : list event),
    fetch_topics topics acc script trace = Raised e trace' ->
    e = KeyError "list" \/ e = KeyError "count" \/ e = ZeroDivisionError \/
  e = OverflowError.
Proof.
  induction topics as [|topic_id topics IH]; intros acc script trace e trace';
    simpl; [discriminate | ].
  destruct (get_tools topic_id script) as [got rest1 tr1|e1 tr1|] eqn:Hget;
    try discriminate.
  - apply IH.
  - intros H. injection H as <- _. apply (get_tools_raised_exn _ _ _ _ Hget).
Qed.

Lemma convert_cases (fs : files) (l : list tool) (trace : list event) :
  (exists df,
     tools_to_df l = Ok df /\
     convert fs l trace =
     Exited {| DF_CACHE_FILE := Some df;
               TOOL_CACHE_FILE := TOOL_CACHE_FILE fs |} df
       (trace ++ [ Log INFO "Converting tools to DataFrame.";
                   Log INFO "Writing fetched data to cache file." ]))
  \/ (exists e,
        tools_to_df l = Raise e /\
        convert fs l trace =
        Crashed e fs (trace ++ [ Log INFO "Converting tools to DataFrame." ])).
Proof.
  unfold convert. destruct (tools_to_df l) as [df|e].
  - left. exists df. rewrite <- app_assoc. auto.
  - right. exists e. auto.
Qed.

(** X18: a cache file that exists is used and kept: with the table cache
    the run returns its table, makes no request and leaves both files as
    they are; with the raw cache alone the run makes no request, leaves the
    raw cache as it is and converts its records as they are, without the
    deduplication step. *)
Theorem main_uses_caches (fs : files) (script : list reply) :
  (forall df,
     DF_CACHE_FILE fs = Some df ->
     main fs script =
     Exited fs df
       [ Log INFO "Dataframe cache file found. Loading data from cache." ])
  /\ (forall l,
        DF_CACHE_FILE fs = None -> TOOL_CACHE_FILE fs = Some l ->
        requests (run_trace (main fs script)) = [] /\
        TOOL_CACHE_FILE (files_of (main fs script)) = Some l /\
        (forall df,
           tools_to_df l = Ok df ->
           exists trace,
             main fs script =
             Exited {| DF_CACHE_FILE := Some df;
                       TOOL_CACHE_FILE := Some l |} df trace) /\
        (forall e,
           tools_to_df l = Raise e ->
           exists trace, main fs script = Crashed e fs trace)).
Proof.
  split.
  - intros df Hdf. unfold main. rewrite Hdf. reflexivity.
  - intros l Hdf Hl. unfold main. rewrite Hdf, Hl.
    destruct (convert_cases fs l
                [ Log INFO
                    "bio.tools cache file found. Loading data from cache." ])
      as [(df & Htab & ->) | (e & Htab & ->)]; simpl; rewrite Hl;
      repeat split; intros x Hx; rewrite Htab in Hx; try discriminate;
      injection Hx as <-; eauto.
Qed.

Lemma main_uses_caches_witness :
  main {| DF_CACHE_FILE := Some []; TOOL_CACHE_FILE := None |}
    [ Body empty_page ] =
  Exited {| DF_CACHE_FILE := Some []; TOOL_CACHE_FILE := None |} []
    [ Log INFO "Dataframe cache file found. Loading data from cache." ]
  /\ requests
       (run_trace (main (raw_cache_only [first_copy; second_copy])
                     [ Body empty_page ])) = [].
Proof.
  split.
  - apply (proj1 (main_uses_caches
                    {| DF_CACHE_FILE := Some []; TOOL_CACHE_FILE := None |}
                    [ Body empty_page ])).
    reflexivity.
  - apply (proj2 (main_uses_caches (raw_cache_only [first_copy; second_copy])
                    [ Body empty_page ]) [first_copy; second_copy]);
      reflexivity.
Defined.




(** X20: a run without cache files that exits has consumed a prefix of
    the replies; the raw cache it leaves holds the records of all the
    pages of that prefix, in order and with their duplicates; the table is
    the conversion of the deduplicated records, and no two of its rows
    have the same id. *)
Theorem main_cold_run (script : list reply) (fs' : files) (df : list row)
  (trace : list event) :
  main no_files script = Exited fs' df trace ->
  exists used rest l out,
    script = used ++ rest /\
    l = lists_of (bodies used) /\
    fs' = {| DF_CACHE_FILE := Some df; TOOL_CACHE_FILE := Some l |} /\
    unique_tools l = Ok out /\
    tools_to_df out = Ok df /\
    NoDup (map r_id df).
Proof.
  unfold main, no_files. cbn [DF_CACHE_FILE TOOL_CACHE_FILE].
  destruct (fetch_topics PROTEOMICS_EDAM_TOPICS _ _ _) as [l1 rest1 tr1| |]
    eqn:H1; try discriminate.
  destruct (fetch_topics GENOMIC_EDAM_TOPICS _ _ _) as [l2 rest2 tr2| |]
    eqn:H2; try discriminate.
  destruct (unique_tools l2) as [out|e] eqn:Hu; try discriminate.
  unfold convert. destruct (tools_to_df out) as [df'|e] eqn:Hdf;
    try discriminate.
  intros H. injection H as <- <- _. cbn [TOOL_CACHE_FILE].
  destruct (fetch_topics_account _ _ _ _ _ _ _ H1) as (used1 & -> & ->).
  destruct (fetch_topics_account _ _ _ _ _ _ _ H2) as (used2 & -> & ->).
  exists (used1 ++ used2), rest2, (lists_of (bodies (used1 ++ used2))), out.
  rewrite bodies_app, lists_of_app, <- app_assoc in *. simpl in Hu.
  repeat split; try assumption.
  exact (deduplicated_ids_unique _ out df' Hu Hdf).
Qed.

Lemma main_cold_run_witness :
  exists fs' df used rest out,
    msfragger_script = used ++ rest /\
    fs' = {| DF_CACHE_FILE := Some df;
             TOOL_CACHE_FILE := Some (lists_of (bodies used)) |} /\
    unique_tools (lists_of (bodies used)) = Ok out /\
    tools_to_df out = Ok df /\
    NoDup (map r_id df).
Proof.
  destruct (main no_files msfragger_script) as [fs' df trace| |] eqn:Hrun;
    try (vm_compute in Hrun; discriminate Hrun).
  destruct (main_cold_run msfragger_script fs' df trace Hrun)
    as (used & rest & l & out & Hs & -> & Hfs & Hu & Hdf & Hnd).
  exists fs', df, used, rest, out. auto.
Defined.

(** X21: a run that does not exit writes no table; a run that is still
    fetching when the replies run out has written nothing; a run that
    crashes has written the raw cache only when it started without cache
    files and the exception is a [KeyError]. *)
Theorem main_failure_files (fs : files) (script : list reply) :
  (forall fs' trace,
     main fs script = Hung fs' trace ->
     fs' = fs /\ DF_CACHE_FILE fs = None /\ TOOL_CACHE_FILE fs = None)
  /\ (forall e fs' trace,
        main fs script = Crashed e fs' trace ->
        DF_CACHE_FILE fs' = None /\
        (fs' = fs \/
         exists key l,
           e = KeyError key /\ TOOL_CACHE_FILE fs = None /\
           fs' = raw_cache_only l)).
Proof.
  unfold main. destruct (DF_CACHE_FILE fs) as [df0|] eqn:Hdf;
    [split; intros; discriminate | ].
  assert (forall fs0 l tr e fs' trace,
            convert fs0 l tr = Crashed e fs' trace ->
            fs' = fs0 /\ exists key, e = KeyError key) as Hconv.
  { intros fs0 l tr e fs' trace. unfold convert.
    destruct (tools_to_df l) as [df|e'] eqn:Htab; [discriminate | ].
    intros H. injection H as <- <- _. split; [reflexivity | ].
    destruct (tools_to_df_raise_keys l e' Htab) as (key & -> & _).
    eauto. }
  assert (forall fs0 l tr fs' trace, convert fs0 l tr <> Hung fs' trace)
    as Hnohang.
  { intros fs0 l tr fs' trace. unfold convert.
    destruct (tools_to_df l); discriminate. }
  destruct (TOOL_CACHE_FILE fs) as [l|] eqn:Hl.
  - split.
    + intros fs' trace H. exfalso. exact (Hnohang _ _ _ _ _ H).
    + intros e fs' trace H. destruct (Hconv _ _ _ _ _ _ H) as [-> _].
      auto.
  - destruct (fetch_topics PROTEOMICS_EDAM_TOPICS _ _ _)
      as [l1 rest1 tr1|e1 tr1|st1 tr1].
    + destruct (fetch_topics GENOMIC_EDAM_TOPICS _ _ _)
        as [l2 rest2 tr2|e2 tr2|st2 tr2].
      * destruct (unique_tools l2) as [out|e0] eqn:Hu.
        -- split.
           ++ intros fs' trace H. exfalso. exact (Hnohang _ _ _ _ _ H).
           ++ intros e fs' trace H.
              destruct (Hconv _ _ _ _ _ _ H) as [-> (key & ->)].
              split; [reflexivity | ]. right. exists key, l2. auto.
        -- split; [intros; discriminate | ].
           intros e fs' trace H. injection H as <- <- _.
           split; [reflexivity | ]. right.
           rewrite (unique_tools_raise_key l2 e0 Hu).
           exists "biotoolsID"%string, l2. auto.
      * split; [intros; discriminate | ].
        intros e fs' trace H. injection H as _ <- _. auto.
      * split; [ | intros; discriminate].
        intros fs' trace H. injection H as <- _. auto.
    + split; [intros; discriminate | ].
      intros e fs' trace H. injection H as _ <- _. auto.
    + split; [ | intros; discriminate].
      intros fs' trace H. injection H as <- _. auto.
Qed.

Lemma main_failure_files_witness :
  DF_CACHE_FILE no_files = None /\
  (no_files = no_files \/
   exists key l,
     ZeroDivisionError = KeyError key /\ TOOL_CACHE_FILE no_files = None /\
     no_files = raw_cache_only l).
Proof.
  apply (proj2 (main_failure_files no_files [ Body empty_page ])
           ZeroDivisionError no_files
           (run_trace (main no_files [ Body empty_page ]))).
  reflexivity.
Defined.

Lemma missing_identifier_cases (l : list tool) :
  (exists t, In t l /\ biotoolsID t = None) \/
  Forall (fun t => is_Some (biotoolsID t)) l.
Proof.
  induction l as [|t l [(t' & Hin & Ht') | IH]].
  - right. constructor.
  - left. exists t'. simpl. auto.
  - destruct (biotoolsID t) as [k|] eqn:Hk.
    + right. constructor; [rewrite Hk; eauto | exact IH].
    + left. exists t. simpl. auto.
Qed.

(** X22: when a run without cache files crashes with [KeyError] for
    "biotoolsID", it has fetched a record without identifier and has
    written the raw cache before the deduplication step; a later run on
    the files it left converts that raw cache, the record without
    identifier included, when its records are otherwise accepted. *)
Theorem main_missing_identifier (script : list reply) (fs' : files)
  (trace : list event) :
  main no_files script = Crashed (KeyError "biotoolsID") fs' trace ->
  exists l,
    fs' = raw_cache_only l /\
    (exists t, In t l /\ biotoolsID t = None) /\
    (Forall (fun t => well_formed t = true) l ->
     forall script',
     exists df trace',
       main fs' script' =
       Exited {| DF_CACHE_FILE := Some df; TOOL_CACHE_FILE := Some l |}
         df trace' /\
       length df = length l).
Proof.
  unfold main at 1, no_files. cbn [DF_CACHE_FILE TOOL_CACHE_FILE].
  destruct (fetch_topics PROTEOMICS_EDAM_TOPICS _ _ _)
    as [l1 rest1 tr1|e1 tr1|st1 tr1] eqn:H1; try discriminate.
  - destruct (fetch_topics GENOMIC_EDAM_TOPICS _ _ _)
      as [l2 rest2 tr2|e2 tr2|st2 tr2] eqn:H2; try discriminate.
    + destruct (unique_tools l2) as [out|e0] eqn:Hu.
      * unfold convert. destruct (tools_to_df out) as [df|e'] eqn:Htab;
          [discriminate | ].
        intros H. injection H as -> _ _. exfalso.
        destruct (tools_to_df_raise_keys out _ Htab) as (key & Hkey & Hin).
        injection Hkey as <-. simpl in Hin.
        repeat (destruct Hin as [Hin | Hin]; [discriminate Hin | ]).
        contradiction.
      * intros H. injection H as -> <- _.
        exists l2. split; [reflexivity | ]. split.
        -- destruct (missing_identifier_cases l2) as [Hm | Hall];
             [exact Hm | ].
           destruct (unique_tools_spec l2 Hall) as (out & Hout & _).
           congruence.
        -- intros Hwf script'.
           destruct (tools_to_df_total l2 Hwf) as (df & Hdf).
           exists df. unfold main, raw_cache_only, convert.
           cbn [DF_CACHE_FILE TOOL_CACHE_FILE]. rewrite Hdf.
           eexists. split; [reflexivity | ].
           apply (proj1 (tools_to_df_lookup l2 df Hdf)).
    + intros H. injection H as -> _ _. exfalso.
      destruct (fetch_topics_raised _ _ _ _ _ _ H2)
        as [He | [He | [He | He]]]; discriminate He.
  - intros H. injection H as -> _ _. exfalso.
    destruct (fetch_topics_raised _ _ _ _ _ _ H1)
      as [He | [He | [He | He]]]; discriminate He.
Qed.

Lemma main_missing_identifier_witness :
  exists l,
    files_of (main no_files no_id_script) = raw_cache_only l /\
    (exists t, In t l /\ biotoolsID t = None) /\
    (Forall (fun t => well_formed t = true) l ->
     forall script',
     exists df trace',
       main (files_of (main no_files no_id_script)) script' =
       Exited {| DF_CACHE_FILE := Some df; TOOL_CACHE_FILE := Some l |}
         df trace' /\
       length df = length l).
Proof.
  apply (main_missing_identifier no_id_script
           (files_of (main no_files no_id_script))
           (run_trace (main no_files no_id_script))).
  reflexivity.
Defined.

(** ** Request failures do not show in what a run leaves *)

Lemma fetch_loop_same_outcome (topic_id : string) (script : list reply) :
  forall (st : locals) (tr1 tr2 : list event),
    same_outcome (fetch_loop topic_id (without_failures script) st tr1)
      (fetch_loop topic_id script st tr2).
Proof.
  induction script as [|r script IH]; intros st tr1 tr2.
  - reflexivity.
  - destruct r as [response|msg|data].
    + change (without_failures (RequestFailed response :: script))
        with (without_failures script).
      rewrite fetch_loop_failed.
      destruct (server_error response); apply IH.
    + change (without_failures (InvalidJSON msg :: script))
        with (InvalidJSON msg :: without_failures script).
      rewrite !fetch_loop_invalid. apply IH.
    + change (without_failures (Body data :: script))
        with (Body data :: without_failures script).
      rewrite !fetch_loop_step.
      destruct (try_body_Body st data)
        as [[Hl Htry] | (l & Hl & [[Hfin Htry] | [(Hfin & Hc & Htry)
            | [(Hfin & Hnil & Hc & Htry)
        | [(Hin & Hov & Htry) | (Hin & pages & Htry)]]]])];
        rewrite Htry; simpl; try apply IH; auto.
Qed.

Lemma fetch_topics_same_outcome (topics : list string) :
  forall (acc : list tool) (script : list reply) (tr1 tr2 : list event),
    same_outcome (fetch_topics topics acc (without_failures script) tr1)
      (fetch_topics topics acc script tr2).
Proof.
  induction topics as [|topic_id topics IH]; intros acc script tr1 tr2.
  - simpl. auto.
  - simpl.
    pose proof (fetch_loop_same_outcome topic_id script
                  {| tools := []; page := 1; max_pages := 0 |} [] [])
      as Hsame.
    unfold get_tools.
    destruct (fetch_loop topic_id (without_failures script) _ _)
      as [l1 rest1 t1|e1 t1|st1 t1];
      destruct (fetch_loop topic_id script _ _)
        as [l2 rest2 t2|e2 t2|st2 t2];
      simpl in Hsame; try contradiction.
    + destruct Hsame as [-> ->]. apply IH.
    + subst. reflexivity.
    + subst. reflexivity.
Qed.

(** X23: request failures, with or without a response, never change what
    a run leaves: the same script without them gives the same files, the
    same table, the same exception, or is waiting for a reply all the
    same. *)
Theorem main_ignores_failures (fs : files) (script : list reply) :
  result_of (main fs (without_failures script)) = result_of (main fs script).
Proof.
  unfold main. destruct (DF_CACHE_FILE fs); [reflexivity | ].
  destruct (TOOL_CACHE_FILE fs); [reflexivity | ].
  assert (forall fs0 l t1 t2,
            result_of (convert fs0 l t1) = result_of (convert fs0 l t2))
    as Hconv.
  { intros fs0 l t1 t2. unfold convert. destruct (tools_to_df l); reflexivity. }
  match goal with
  | |- context [fetch_topics PROTEOMICS_EDAM_TOPICS [] script ?t] =>
      pose proof (fetch_topics_same_outcome PROTEOMICS_EDAM_TOPICS []
                    script t t) as H1
  end.
  destruct (fetch_topics PROTEOMICS_EDAM_TOPICS [] (without_failures script) _)
    as [l1 rest1 t1|e1 t1|st1 t1];
    destruct (fetch_topics PROTEOMICS_EDAM_TOPICS [] script _)
      as [l1' rest1' t1'|e1' t1'|st1' t1'];
    simpl in H1; try contradiction.
  - destruct H1 as [-> ->].
    pose proof (fetch_topics_same_outcome GENOMIC_EDAM_TOPICS l1' rest1'
                  (t1 ++ [ Log INFO "Fetching genomic tools..." ])
                  (t1' ++ [ Log INFO "Fetching genomic tools..." ])) as H2.
    destruct (fetch_topics GENOMIC_EDAM_TOPICS l1' (without_failures rest1') _)
      as [l2 rest2 t2|e2 t2|st2 t2];
      destruct (fetch_topics GENOMIC_EDAM_TOPICS l1' rest1' _)
        as [l2' rest2' t2'|e2' t2'|st2' t2'];
      simpl in H2; try contradiction.
    + destruct H2 as [-> _].
      destruct (unique_tools l2'); [apply Hconv | reflexivity].
    + subst. reflexivity.
    + reflexivity.
  - subst. reflexivity.
  - reflexivity.
Qed.

(** ** Page numbers in the URL *)

Lemma append_cancel (s a b : string) :
  (s ++ a)%string = (s ++ b)%string -> a = b.
Proof.
  induction s as [|c s IH]; intros H; [exact H | ].
  apply IH. change (String c (s ++ a) = String c (s ++ b))%string in H.
  congruence.
Qed.

Lemma int_of_str_str (n : Z) : int_of_str (str n) = Some n.
Proof.
  unfold int_of_str, str. rewrite DecimalString.NilZero.isi.
  - simpl. rewrite DecimalZ.of_to. reflexivity.
  - destruct n; simpl; try discriminate.
    intros H. injection H as H.
    exact (DecimalPos.Unsigned.to_uint_nonnil _ H).
  - destruct n; simpl; try discriminate.
    intros H. injection H as H.
    exact (DecimalPos.Unsigned.to_uint_nonnil _ H).
Qed.

(** X24: the page number is written in the URL so that it can be read
    back: [int] on the text of a number gives the number, and two page
    numbers that give the same URL for a topic are the same. *)
Theorem page_url_inj (topic_id : string) (p q : Z) :
  int_of_str (str p) = Some p /\
  (page_url topic_id p = page_url topic_id q -> p = q).
Proof.
  split; [apply int_of_str_str | ].
  unfold page_url. intros H.
  apply append_cancel, append_cancel, append_cancel in H.
  assert (Some p = Some q) as Hpq
    by (rewrite <- (int_of_str_str p), <- (int_of_str_str q), H; reflexivity).
  congruence.
Qed.

Lemma page_url_inj_witness :
  int_of_str (str 12) = Some 12 /\ 12 = 12.
Proof.
  split.
  - apply (proj1 (page_url_inj "0121" 12 12)).
  - apply (proj2 (page_url_inj "0121" 12 12)). reflexivity.
Defined.

(** ** Pagination over well-filled pages *)

(** X25: for [k] pages that each have records, a next page and a count
    below [2 ^ 1023] in absolute value, followed by a page that ends the
    sequence, the fetch asks for pages 1 to [k+1] once each, pauses
    nowhere, logs no error and returns the records of the [k+1] pages in
    order, leaving the rest of the script. *)
Theorem get_tools_well_filled_pages (topic_id : string)
  (pages : list page_data) (last : page_data) (rest : list reply) :
  forallb inner_page pages = true ->
  Forall (fun data =>
            forall count, pg_count data = Some count ->
                          Z.abs count < 2 ^ 1023) pages ->
  final_page last = true ->
  exists trace,
    get_tools topic_id (map Body (pages ++ [last]) ++ rest) =
    Returned (lists_of (pages ++ [last])) rest trace /\
    requests trace = page_urls topic_id 1 (length pages + 1) /\
    sleeps trace = [] /\ logged ERROR trace = [].
Proof.
  intros Hpages Hrange. apply get_tools_pagination; [exact Hpages | ].
  apply forallb_forall. intros data Hin.
  pose proof (proj1 (List.Forall_forall _ _) Hrange data Hin) as Hdata.
  unfold count_in_range.
  destruct (pg_count data) as [count|] eqn:Hc; [ | reflexivity].
  apply Z.ltb_lt. exact (Hdata count Hc).
Qed.

Lemma get_tools_well_filled_pages_witness :
  exists trace,
    get_tools "0121"
      (map Body ([inner_sample; inner_sample] ++ [last_page [second_copy]])
       ++ [ Body empty_page ]) =
    Returned [first_copy; first_copy; second_copy] [ Body empty_page ] trace /\
    requests trace =
    [ page_url "0121" 1; page_url "0121" 2; page_url "0121" 3 ] /\
    sleeps trace = [] /\ logged ERROR trace = [].
Proof.
  apply (get_tools_well_filled_pages "0121" [inner_sample; inner_sample]
           (last_page [second_copy]) [ Body empty_page ]).
  - reflexivity.
  - repeat constructor; intros count H; injection H as <-; reflexivity.
  - reflexivity.
Defined.
